(** * targets_to_configuration: coverage resolution and conversion orchestration

    A shallow embedding of [tools/upgrade/commands/targets_to_configuration.py]
    (class [TargetsToConfiguration]) and the properties of its directory
    coverage resolver, per-directory conversion and top-level run.

    Paths are represented by their rendered string ([str(path)]).  Every
    collaborator that lives outside the file (pathlib, the filesystem
    helpers, the configuration store, the repository) is a field of the
    [Collaborators] interface; effects on the working copy are recorded, in
    order, in a trace of [event]s, and every query is answered from the trace
    accumulated so far. *)

From Stdlib Require Import List String Ascii Bool Arith ZArith Lia.
From Stdlib Require Import Sorting.Sorted Sorting.Permutation.
From Stdlib Require Import Numbers.DecimalString.
Import ListNotations.

Local Open Scope string_scope.
Local Open Scope list_scope.

Set Implicit Arguments.

(** ** Python built-ins used by the command *)

Module Py.

(** [s.startswith(p)] *)
Definition startswith (s p : string) : bool := String.prefix p s.

(** [s.split(sep)] for a one-character separator: never empty. *)
Fixpoint split (sep : ascii) (s : string) : list string :=
  match s with
  | EmptyString => [EmptyString]
  | String c s' =>
      if Ascii.eqb c sep then EmptyString :: split sep s'
      else match split sep s' with
           | [] => [String c EmptyString]
           | w :: ws => String c w :: ws
           end
  end.

(** [sep.join(parts)] *)
Definition join (sep : string) (parts : list string) : string :=
  String.concat sep parts.

(** [s.replace(old, new)] for a non-empty [old]: every non-overlapping
    occurrence, scanning from the left.  [skip] counts the characters of a
    matched occurrence that are still to be dropped. *)
Fixpoint replace_from (old new : string) (skip : nat) (s : string) : string :=
  match s with
  | EmptyString => EmptyString
  | String c s' =>
      match skip with
      | S k => replace_from old new k s'
      | O =>
          if String.prefix old s
          then (new ++ replace_from old new (String.length old - 1) s')%string
          else String c (replace_from old new 0 s')
      end
  end.

Definition replace (s old new : string) : string := replace_from old new 0 s.

(** Truthiness of an [Optional[int]]: [None] and [0] are falsy. *)
Definition truthy (v : option Z) : bool :=
  match v with
  | Some n => negb (Z.eqb n 0)
  | None => false
  end.

(** Truthiness of an [Optional[str]]: [None] and the empty string are falsy. *)
Definition truthy_str (v : option string) : bool :=
  match v with
  | Some s => negb (String.eqb s "")
  | None => false
  end.

(** [str(n)] / [f"{n}"] for an integer. *)
Definition str_int (n : Z) : string := NilZero.string_of_int (Z.to_int n).

(** Lexicographic [<] on lists of strings (strings by code unit). *)
Fixpoint list_ltb (a b : list string) : bool :=
  match a, b with
  | [], [] => false
  | [], _ :: _ => true
  | _ :: _, [] => false
  | x :: a', y :: b' =>
      match String.compare x y with
      | Lt => true
      | Gt => false
      | Eq => list_ltb a' b'
      end
  end.

(** [<] on the tuples [(len(directory), directory)] used as sort key. *)
Definition key_ltb (a b : list string) : bool :=
  if Nat.ltb (List.length a) (List.length b) then true
  else if Nat.ltb (List.length b) (List.length a) then false
  else list_ltb a b.

(** [a <= b] on sort keys, as [not (b < a)]. *)
Definition key_le (a b : list string) : Prop := key_ltb b a = false.

(** [sorted(xs, key=...)]: the stable sort, which only ever asks [<]. *)
Fixpoint insert (ltb : list string -> list string -> bool)
         (x : list string) (l : list (list string)) : list (list string) :=
  match l with
  | [] => [x]
  | y :: l' => if ltb y x then y :: insert ltb x l' else x :: l
  end.

Definition sorted (ltb : list string -> list string -> bool)
           (l : list (list string)) : list (list string) :=
  fold_right (insert ltb) [] l.

End Py.

(** ** Data model *)

(** A JSON document, as [json.load] returns it. *)
#[warnings="-register-all"]
Inductive json : Type :=
| JNull
| JBool (b : bool)
| JNumber (n : Z)
| JString (s : string)
| JArray (items : list json)
| JObject (fields : list (string * json)).

(** [{"targets": new_targets}] *)
Definition targets_document (new_targets : list string) : json :=
JObject [("targets", JArray (map JString new_targets))].

Inductive loglevel : Type := INFO | WARNING.

(** An argument of a [%s] / [%d] logging template. *)
Inductive logarg : Type :=
| LStr (s : string)
| LInt (n : Z).

(** [LocalMode]: the member the command uses. *)
Inductive LocalMode : Type := IGNORE.

(** The parsed command line, read-only during a run ([_glob] is the one
  attribute the command mutates; it lives in [state]). *)
Record arguments : Type := {
subdirectory : option string;
lint : bool;
fixme_threshold : option Z;
no_commit : bool;
submit : bool;
pyre_only : bool
}.

(** The command line with another [--fixme-threshold]. *)
Definition with_fixme_threshold (threshold : option Z) (self : arguments)
  : arguments :=
  {| subdirectory := subdirectory self;
     lint := lint self;
     fixme_threshold := threshold;
     no_commit := no_commit self;
     submit := submit self;
     pyre_only := pyre_only self |}.

Section Model.

(** One type error of the checker, and the configuration store object. *)
Context {Error Configuration : Type}.

(** Effects, in the order the command performs them. *)
Inductive event : Type :=
| Log (level : loglevel) (template : string) (args : list logarg)
| ConfigurationWrite (configuration : Configuration)
| AddPaths (paths : list string)
| SubprocessRun (argv : list string)
| RemoveNonPyreIgnores (directory : string)
| GetErrors (configuration : Configuration) (should_clean : option bool)
| RevertAll (remove_untracked : bool)
| AddLocalMode (path : string) (mode : LocalMode)
| SuppressErrors (errors : list Error)
| SuppressReport (report : list (string * list Error))
| Format
| SubmitChanges (commit submit : bool) (title summary : string)
                (set_dependencies : bool).

(** The collaborators of the command.  A query sees the effects performed
    so far, so its answer may change as the working copy changes. *)
Record Collaborators : Type := {
  (* pathlib, on rendered paths: [str(Path(s))], [str(Path(a) / b)] *)
  Path : string -> string;
  joinpath : string -> string -> string;
  cwd : list event -> string;
  (* ..filesystem *)
  find_targets : list event -> string -> bool -> list (string * list string);
  find_files : list event -> string -> string -> list string;
  find_directories : list event -> string -> list string;
  filesystem_list : list event -> string -> list string -> list string;
  path_exists : list event -> string -> bool;
  json_load : list event -> string -> json;
  (* ..configuration *)
  Configuration_init : string -> json -> Configuration;
  add_targets : Configuration -> list string -> Configuration;
  deduplicate_targets : Configuration -> Configuration;
  get_errors : list event -> Configuration -> option bool
               -> list (string * list Error);
  (* ..repository *)
  MIGRATION_SUMMARY : string;
  format : list event -> bool
}.

(** The mutable part of the command object and the trace of its effects. *)
Record state : Type := {
  glob : option Z;
  trace : list event
}.

Definition emit (e : event) (st : state) : state :=
  {| glob := glob st; trace := trace st ++ [e] |}.

Definition set_glob (g : option Z) (st : state) : state :=
  {| glob := g; trace := trace st |}.

(** Outcome of a loop body that may [return] from the enclosing method. *)
Inductive flow : Type :=
| Next (st : state)
| Return (result : option state).

(** [threshold and error_count > threshold] *)
Definition exceeds (threshold : option Z) (error_count : Z) : bool :=
  match threshold with
  | Some n => negb (Z.eqb n 0) && Z.ltb n error_count
  | None => false
  end.

(** The state after the further effects [t]. *)
Definition extend (t : list event) (st : state) : state :=
  {| glob := glob st; trace := trace st ++ t |}.

(** What the threshold loop does for one file that does not trigger the
    glob fallback (lines 154-162). *)
Definition file_events (error_threshold : option Z)
           (file : string * list Error) : list event :=
  let error_count := Z.of_nat (List.length (snd file)) in
  if exceeds error_threshold error_count then
    [Log INFO "%d errors found in `%s`. Adding file-level ignore."
         [LInt error_count; LStr (fst file)];
     AddLocalMode (fst file) IGNORE]
  else [SuppressErrors (snd file)].

(** The number of glob fallbacks (working-copy reverts) in a trace. *)
Definition is_fallback (e : event) : bool :=
  match e with
  | RevertAll _ => true
  | _ => false
  end.

Definition fallbacks (t : list event) : nat :=
  List.length (filter is_fallback t).

(** A step of the command that leaves [glob] alone and reverts nothing. *)
Definition quiet (st st' : state) : Prop :=
  glob st' = glob st /\ fallbacks (trace st') = fallbacks (trace st).

(** A step in which the glob fallback fired, once. *)
Definition fell (st st' : state) : Prop :=
  Py.truthy (glob st) = true
  /\ glob st' = None
  /\ fallbacks (trace st') = S (fallbacks (trace st)).

(** A re-entered [run] that, started with glob mode off, completes without a
    revert and with glob mode still off. *)
Definition restartable (run : state -> option state) : Prop :=
  forall t0, exists t,
      fallbacks t = 0
      /\ run {| glob := None; trace := t0 |}
         = Some {| glob := None; trace := t0 ++ t |}.

(** Two re-entered [run]s that agree whenever glob mode is off. *)
Definition agree (run run' : state -> option state) : Prop :=
  forall st, glob st = None -> run st = run' st.

Variable C : Collaborators.
Variable self : arguments.

(** *** [_gather_directories] *)

(** Lines 227-230: no known configuration directory starts with the
    subdirectory's path string. *)
Definition uncovered (configuration_directories : list string)
           (subdirectory : string) : bool :=
  forallb (fun configuration_directory =>
             negb (Py.startswith configuration_directory subdirectory))
          configuration_directories.

(** Lines 226-231. *)
Definition add_missing (configuration_directories : list string)
           (missing_directories : list string) (subdirectory : string)
  : list string :=
  if uncovered configuration_directories subdirectory
  then missing_directories ++ [subdirectory]
  else missing_directories.

(** Lines 220-232: one iteration over [sorted_directories]; the loop
    carries [(current_depth, missing_directories)]. *)
Definition fill_step (t : list event) (configuration_directories : list string)
           (acc : nat * list string) (directory : list string)
  : nat * list string :=
  let '(current_depth, missing_directories) := acc in
  if Nat.leb (List.length directory) current_depth then acc
  else
    let all_subdirectories :=
      find_directories C t (Path C (Py.join "/" (firstn current_depth directory))) in
    (S current_depth,
     fold_left (add_missing configuration_directories)
               all_subdirectories missing_directories).

(** Lines 205-209. *)
Definition known_directories (t : list event) (subdirectory : string)
  : list string :=
  map (fun configuration =>
         Py.replace configuration "/.pyre_configuration.local" "")
      (find_files C t subdirectory ".pyre_configuration.local").

(** Lines 210-213. *)
Definition sorted_directories (configuration_directories : list string)
  : list (list string) :=
  Py.sorted Py.key_ltb (map (Py.split "/") configuration_directories).

(** Lines 218-232. *)
Definition missing_directories (t : list event)
           (configuration_directories : list string) : list string :=
  snd (fold_left (fill_step t configuration_directories)
                 (sorted_directories configuration_directories)
                 (1, [])).

(** The subdirectories listed while the gaps are filled, in listing order:
    the walk of lines 220-232 without the test of lines 227-230. *)
Definition enumerate_step (t : list event) (acc : nat * list string)
           (directory : list string) : nat * list string :=
  let '(current_depth, listed) := acc in
  if Nat.leb (List.length directory) current_depth then acc
  else
    (S current_depth,
     listed
       ++ find_directories C t (Path C (Py.join "/" (firstn current_depth directory)))).

Definition enumerated_subdirectories (t : list event)
           (configuration_directories : list string) : list string :=
  snd (fold_left (enumerate_step t)
                 (sorted_directories configuration_directories)
                 (1, [])).

Definition _gather_directories (t : list event) (subdirectory : string)
  : list string :=
  let configuration_directories := known_directories t subdirectory in
  let configuration_directories :=
    if Nat.eqb (List.length configuration_directories) 0
    then [subdirectory]
    else configuration_directories
           ++ missing_directories t configuration_directories in
  map (Path C) configuration_directories.

(** *** [remove_target_typing_fields] (lines 75-88) *)

Definition typing_options_regex : list string :=
  ["typing \?=.*";
   "check_types \?=.*";
   "check_types_options \?=.*";
   "typing_options \?=.*"].

Definition remove_typing_fields_command (files : list string) : list string :=
  ["sed"; "-i"; ("/" ++ Py.join "\|" typing_options_regex ++ "/d")%string]
    ++ files.

Definition remove_target_typing_fields (files : list string) (st : state)
  : state :=
  let st := emit (Log INFO "Removing typing options from %s targets files"
                      [LInt (Z.of_nat (List.length files))]) st in
  emit (SubprocessRun (remove_typing_fields_command files)) st.

(** *** [convert_directory] (lines 90-168) *)

(** The line feed of a Python ["\n"]. *)
Definition LF : string := String (Ascii.ascii_of_nat 10) EmptyString.

(** Lines 104-108: the loop over [all_targets.items()], carrying
    [(new_targets, targets_files)]. *)
Definition explicit_step (acc : list string * list string)
           (item : string * list string) : list string * list string :=
  let '(new_targets, targets_files) := acc in
  let '(path, target_names) := item in
  (new_targets
     ++ map (fun name => ("//" ++ path ++ ":" ++ name)%string) target_names,
   targets_files ++ [joinpath C (Path C path) "TARGETS"]).

(** Lines 95-108: the new targets and the build files to strip. *)
Definition select_targets (directory : string)
           (all_targets : list (string * list string)) (st : state)
  : list string * list string :=
  if Py.truthy (glob st) then
    ([("//" ++ directory ++ "/...")%string],
     map (fun path => joinpath C directory path)
         (filesystem_list C (trace st) directory ["**/TARGETS"]))
  else
    fold_left explicit_step all_targets ([], []).

(** Lines 110-131: amend the existing configuration or create one. *)
Definition write_configuration (configuration_path : string)
           (new_targets : list string) (st : state) : Configuration * state :=
  if path_exists C (trace st) configuration_path then
    let st :=
      emit (Log WARNING
                ("Pyre project already exists at %s." ++ LF ++
                 "                Amending targets to existing configuration."
                )%string
                [LStr configuration_path]) st in
    let configuration :=
      Configuration_init C configuration_path
                         (json_load C (trace st) configuration_path) in
    let configuration := add_targets C configuration new_targets in
    let configuration := deduplicate_targets C configuration in
    (configuration, emit (ConfigurationWrite configuration) st)
  else
    let st := emit (Log INFO "Creating local configuration at %s."
                        [LStr configuration_path]) st in
    let configuration_contents := targets_document new_targets in
    let configuration :=
      Configuration_init C configuration_path configuration_contents in
    let st := emit (ConfigurationWrite configuration) st in
    (configuration, emit (AddPaths [configuration_path]) st).

(** Lines 141-162: the loop over the checker's report.  [run] is the
    method re-entered by [return self.run()]. *)
Fixpoint evaluate_thresholds (run : state -> option state)
         (glob_threshold error_threshold : option Z)
         (all_errors : list (string * list Error)) (st : state) : flow :=
  match all_errors with
  | [] => Next st
  | (path, errors) :: rest =>
      let error_count := Z.of_nat (List.length errors) in
      if exceeds glob_threshold error_count then
        let st :=
          emit (Log INFO
                    ("Exceeding error threshold of %d; falling back to listing "
                     ++ "individual targets.")%string
                    [LInt (match glob_threshold with Some n => n | None => 0 end)])
               st in
        let st := emit (RevertAll true) st in
        let st := set_glob None st in
        Return (run st)
      else if exceeds error_threshold error_count then
        let st :=
          emit (Log INFO "%d errors found in `%s`. Adding file-level ignore."
                    [LInt error_count; LStr path]) st in
        let st := emit (AddLocalMode path IGNORE) st in
        evaluate_thresholds run glob_threshold error_threshold rest st
      else
        let st := emit (SuppressErrors errors) st in
        evaluate_thresholds run glob_threshold error_threshold rest st
  end.

(** Lines 164-168. *)
Definition lint_pass (configuration : Configuration) (st : state) : state :=
  if lint self then
    let st := emit Format st in
    if format C (trace st) then
      let st := emit (GetErrors configuration (Some false)) st in
      let errors := get_errors C (trace st) configuration (Some false) in
      emit (SuppressReport errors) st
    else st
  else st.

(** Lines 95-137: everything between target discovery and the threshold
    loop; the state returned is the one in which the checker has just been
    asked for its report. *)
Definition check_directory (directory : string)
           (all_targets : list (string * list string)) (st : state)
  : Configuration * state :=
  let '(new_targets, targets_files) :=
    select_targets directory all_targets st in
  let configuration_path :=
    joinpath C directory ".pyre_configuration.local" in
  let '(configuration, st) :=
    write_configuration configuration_path new_targets st in
  let st := remove_target_typing_fields targets_files st in
  let st := emit (RemoveNonPyreIgnores directory) st in
  (configuration, emit (GetErrors configuration None) st).

Definition convert_directory (run : state -> option state)
           (directory : string) (st : state) : option state :=
  let all_targets := find_targets C (trace st) directory (pyre_only self) in
  match all_targets with
  | [] =>
      Some (emit (Log WARNING
                      "No configuration created because no targets found." [])
                 st)
  | _ :: _ =>
      let '(configuration, st) := check_directory directory all_targets st in
      let all_errors := get_errors C (trace st) configuration None in
      let error_threshold := fixme_threshold self in
      let glob_threshold := glob st in
      match evaluate_thresholds run glob_threshold error_threshold
                                all_errors st with
      | Return result => result
      | Next st => Some (lint_pass configuration st)
      end
  end.

(** *** [run] (lines 170-202) *)

(** Lines 180-183. *)
Definition not_converted (converted : list string) (directory : string)
  : bool :=
  forallb (fun converted_directory =>
             Bool.eqb (Py.startswith directory converted_directory) false)
          converted.

(** Lines 179-185: the loop over [configuration_directories], carrying
    [converted] and the command state. *)
Fixpoint convert_directories (run : state -> option state)
         (configuration_directories converted : list string) (st : state)
  : option (list string * state) :=
  match configuration_directories with
  | [] => Some (converted, st)
  | directory :: rest =>
      if not_converted converted directory then
        match convert_directory run directory st with
        | None => None
        | Some st => convert_directories run rest (converted ++ [directory]) st
        end
      else convert_directories run rest converted st
  end.

Definition glob_summary (glob : Z) : string :=
  (LF ++ LF ++ "Configuration target automatically expanded to include "
      ++ "all subtargets, expanding type coverage while introducing "
      ++ "no more than " ++ Py.str_int glob ++ " fixmes per file.")%string.

(** Lines 187-202. *)
Definition submit_changes (subdirectory : string) (st : state) : state :=
  let summary := MIGRATION_SUMMARY C in
  let glob := glob st in
  let summary :=
    match glob with
    | Some n =>
        if negb (Z.eqb n 0) then (summary ++ glob_summary n)%string
        else summary
    | None => summary
    end in
  let title :=
    ("Convert type check targets in " ++ subdirectory
                                      ++ " to use configuration")%string in
  emit (SubmitChanges (negb (no_commit self)) (submit self) title summary false)
       st.

(** The body of [run]; [run] itself is the method as [convert_directory]
    re-enters it. *)
Definition run_body (run : state -> option state) (st : state)
  : option state :=
  let subdirectory :=
    match subdirectory self with
    | Some s => if negb (String.eqb s "") then Path C s else cwd C (trace st)
    | None => cwd C (trace st)
    end in
  let st :=
    emit (Log INFO "Converting typecheck targets to pyre configurations in `%s`"
              [LStr subdirectory]) st in
  let configuration_directories :=
    _gather_directories (trace st) subdirectory in
  match convert_directories run configuration_directories [] st with
  | None => None
  | Some (_, st) => Some (submit_changes subdirectory st)
  end.

(** [run], with the depth of the [self.run()] re-entries bounded by [fuel];
    [None] is an exhausted bound. *)
Fixpoint run (fuel : nat) (st : state) : option state :=
  match fuel with
  | O => None
  | S fuel' => run_body (run fuel') st
  end.

End Model.

Arguments event : clear implicits.
Arguments Collaborators : clear implicits.
Arguments state : clear implicits.
Arguments flow : clear implicits.

(** ** A scripted working copy *)

Module Fake.

(** Modelled from the spec: the Configuration Store ([..configuration],
    not part of this file): one directory's document, of which the model
    keeps the path and the ordered target list; merge appends the new
    targets, dedupe keeps the first occurrence of each target. *)
Record Configuration : Type := {
  path : string;
  targets : list string
}.

Fixpoint json_strings (items : list json) : list string :=
  match items with
  | JString s :: items' => s :: json_strings items'
  | _ :: items' => json_strings items'
  | [] => []
  end.

Fixpoint json_targets (fields : list (string * json)) : list string :=
  match fields with
  | (key, JArray items) :: fields' =>
      if String.eqb key "targets" then json_strings items
      else json_targets fields'
  | _ :: fields' => json_targets fields'
  | [] => []
  end.

Definition document (path : string) (contents : json)
  : Configuration :=
  {| path := path;
     targets := match contents with
                | JObject fields => json_targets fields
                | _ => []
                end |}.

Definition merge (c : Configuration) (new_targets : list string)
  : Configuration :=
  {| path := path c; targets := targets c ++ new_targets |}.

Fixpoint dedupe (seen l : list string) : list string :=
  match l with
  | [] => []
  | x :: l' =>
      if existsb (String.eqb x) seen then dedupe seen l'
      else x :: dedupe (x :: seen) l'
  end.

Definition deduplicate (c : Configuration) : Configuration :=
  {| path := path c; targets := dedupe [] (targets c) |}.

(** The checker reports error codes. *)
Definition Error : Type := nat.

(** A synthetic tree: the local configurations present at the start, the
    directory listing, the build targets and build files below a
    directory, the checker's report for a configuration and the
    formatter's answer. *)
Record tree : Type := {
  configurations : list (string * list string);
  subdirectories : string -> list string;
  build_targets : string -> list (string * list string);
  build_files : string -> list string;
  report : Configuration -> list (string * list Error);
  formatted : bool
}.

(** The configuration files of the working copy after the effects [t]:
    [(committed, uncommitted)], latest write first. *)
Fixpoint files_after (t : list (event Error Configuration))
         (fs : list Configuration * list Configuration)
  : list Configuration * list Configuration :=
  match t with
  | [] => fs
  | ConfigurationWrite c :: t' => files_after t' (fst fs, c :: snd fs)
  | RevertAll _ :: t' => files_after t' (fst fs, [])
  | SubmitChanges true _ _ _ _ :: t' => files_after t' (snd fs ++ fst fs, [])
  | _ :: t' => files_after t' fs
  end.

Definition files (T : tree) (t : list (event Error Configuration))
  : list Configuration :=
  let fs :=
    files_after t (map (fun '(p, ts) => {| path := p; targets := ts |})
                       (configurations T), []) in
  snd fs ++ fst fs.

Definition lookup (p : string) (l : list Configuration) : option Configuration :=
  find (fun c => String.eqb (path c) p) l.

Fixpoint unique_paths (seen : list string) (l : list Configuration)
  : list string :=
  match l with
  | [] => []
  | c :: l' =>
      if existsb (String.eqb (path c)) seen then unique_paths seen l'
      else path c :: unique_paths (path c :: seen) l'
  end.

Definition world (T : tree) : Collaborators Error Configuration :=
  {| Path := fun s => s;
     joinpath := fun a b => (a ++ "/" ++ b)%string;
     cwd := fun _ => ".";
     find_targets := fun _ directory _ => build_targets T directory;
     find_files := fun t directory name =>
       filter (fun p => String.prefix (directory ++ "/") p)
              (unique_paths [] (files T t));
     find_directories := fun _ directory => subdirectories T directory;
     filesystem_list := fun _ directory _ => build_files T directory;
     path_exists := fun t p =>
       match lookup p (files T t) with Some _ => true | None => false end;
     json_load := fun t p =>
       match lookup p (files T t) with
       | Some c => targets_document (targets c)
       | None => JNull
       end;
     Configuration_init := document;
     add_targets := merge;
     deduplicate_targets := deduplicate;
     get_errors := fun _ c _ => report T c;
     MIGRATION_SUMMARY := "Migrating buck integration to use configurations.";
     format := fun _ => formatted T |}.

Definition start (g : option Z) : state Error Configuration :=
  {| glob := g; trace := [] |}.

(** A tree [src] with build targets in [src/a] and [src/b], a configuration
    already in each, and a file in [src/a] that has two errors once the
    directory is checked through a wildcard target. *)
Definition two_projects : tree :=
  {| configurations :=
       [("src/a/.pyre_configuration.local", []);
        ("src/b/.pyre_configuration.local", [])];
     subdirectories := fun directory =>
       if String.eqb directory "src" then ["src/a"; "src/b"] else [];
     build_targets := fun directory =>
       if String.eqb directory "src/a" then [("src/a", ["x"])]
       else if String.eqb directory "src/b" then [("src/b", ["y"])]
       else [];
     build_files := fun directory => ["TARGETS"];
     report := fun c =>
       if existsb (String.eqb "//src/a/...") (targets c)
       then [("src/a/f.py", [7; 8])]
       else [];
     formatted := false |}.

(** [src/a/b] and [src/a] both have a configuration, and the file search
    reports the deeper one first; [src/a/c] has none. *)
Definition nested_projects : tree :=
  {| configurations :=
       [("src/a/b/.pyre_configuration.local", []);
        ("src/a/.pyre_configuration.local", [])];
     subdirectories := fun directory =>
       if String.eqb directory "src" then ["src/a"]
       else if String.eqb directory "src/a" then ["src/a/b"; "src/a/c"]
       else [];
     build_targets := fun _ => [];
     build_files := fun _ => [];
     report := fun _ => [];
     formatted := false |}.

(** One project, [src/a], whose checker always reports one error in one
    file. *)
Definition noisy_project : tree :=
  {| configurations := [("src/a/.pyre_configuration.local", [])];
     subdirectories := fun directory =>
       if String.eqb directory "src" then ["src/a"] else [];
     build_targets := fun directory =>
       if String.eqb directory "src/a" then [("src/a", ["x"])] else [];
     build_files := fun _ => ["TARGETS"];
     report := fun _ => [("src/a/f.py", [7])];
     formatted := false |}.

(** The scenario of the specification: no configuration yet, targets [x]
    in [a] and [y] in [b/c], no errors. *)
Definition fresh_root : tree :=
  {| configurations := [];
     subdirectories := fun _ => [];
     build_targets := fun _ => [("a", ["x"]); ("b/c", ["y"])];
     build_files := fun _ => [];
     report := fun _ => [];
     formatted := false |}.

(** A root without configuration whose one discovered path, [a], has no
    target names. *)
Definition nameless_root : tree :=
  {| configurations := [];
     subdirectories := fun _ => [];
     build_targets := fun _ => [("a", [])];
     build_files := fun _ => [];
     report := fun _ => [];
     formatted := false |}.

(** One project, [src/a], whose configuration already lists a target. *)
Definition amended_project : tree :=
  {| configurations := [("src/a/.pyre_configuration.local", ["//old:t"])];
     subdirectories := fun directory =>
       if String.eqb directory "src" then ["src/a"] else [];
     build_targets := fun directory =>
       if String.eqb directory "src/a" then [("src/a", ["x"])] else [];
     build_files := fun _ => ["TARGETS"];
     report := fun _ => [];
     formatted := false |}.

(** The state after two directories without targets were passed over. *)
Definition skipped_twice : state Error Configuration :=
  {| glob := None;
     trace :=
       [Log WARNING "No configuration created because no targets found." [];
        Log WARNING "No configuration created because no targets found." []] |}.

Definition options : arguments :=
  {| subdirectory := Some "src";
     lint := false;
     fixme_threshold := None;
     no_commit := false;
     submit := false;
     pyre_only := false |}.

End Fake.

(** ** Observations on whole runs and on the coverage walk *)

(** The directories the loop of lines 179-185 converts, as the list
    [converted] it ends with: a directory is taken when no directory taken
    before it is a string prefix of it. *)
Fixpoint selected (configuration_directories converted : list string)
  : list string :=
  match configuration_directories with
  | [] => converted
  | directory :: rest =>
      if not_converted converted directory
      then selected rest (converted ++ [directory])
      else selected rest converted
  end.

(** The arguments of [Path(...)] in the calls of [find_directories] made by
    the walk of lines 220-232, in call order. *)
Fixpoint walk_parents (walk : list (list string)) (current_depth : nat)
  : list string :=
  match walk with
  | [] => []
  | directory :: rest =>
      if Nat.leb (List.length directory) current_depth
      then walk_parents rest current_depth
      else Py.join "/" (firstn current_depth directory)
             :: walk_parents rest (S current_depth)
  end.

Definition listed_parents (configuration_directories : list string)
  : list string :=
  walk_parents (sorted_directories configuration_directories) 1.

(** Whether a path string holds a slash followed by a dot, that is, has a
    component after the first that starts with a dot. *)
Fixpoint hidden (directory : string) : bool :=
  match directory with
  | EmptyString => false
  | String c rest =>
      match rest with
      | EmptyString => false
      | String c' _ => (Ascii.eqb c "/" && Ascii.eqb c' ".") || hidden rest
      end
  end.

(** The command line with another [--subdirectory]. *)
Definition with_subdirectory (value : option string) (self : arguments)
  : arguments :=
  {| subdirectory := value;
     lint := lint self;
     fixme_threshold := fixme_threshold self;
     no_commit := no_commit self;
     submit := submit self;
     pyre_only := pyre_only self |}.

Section Census.

Context {Error Configuration : Type}.

(** The number of changesets handed to [submit_changes] in a trace. *)
Definition is_submit (e : event Error Configuration) : bool :=
  match e with
  | SubmitChanges _ _ _ _ _ => true
  | _ => false
  end.

Definition submits (t : list (event Error Configuration)) : nat :=
  List.length (filter is_submit t).

(** Effects that neither revert the working copy nor submit a changeset. *)
Definition calm (t : list (event Error Configuration)) : Prop :=
  forallb (fun e => negb (is_fallback e) && negb (is_submit e)) t = true.

(** What a part of a run did: either it left [glob] alone, reverted nothing
    and submitted [k] changesets, or the glob fallback fired once, [glob] is
    now [None] and one changeset more was submitted. *)
Definition outcome (k : nat) (st st' : state Error Configuration) : Prop :=
  (glob st' = glob st
   /\ fallbacks (trace st') = fallbacks (trace st)
   /\ submits (trace st') = submits (trace st) + k)
  \/ (Py.truthy (glob st) = true
      /\ glob st' = None
      /\ fallbacks (trace st') = S (fallbacks (trace st))
      /\ submits (trace st') = S (submits (trace st) + k)).

(** A re-entered [run] that, started with glob mode off, completes with glob
    mode off, without a revert and with one changeset submitted. *)
Definition resubmits
           (run : state Error Configuration -> option (state Error Configuration))
  : Prop :=
  forall t0, exists t,
      fallbacks t = 0 /\ submits t = 1
      /\ run {| glob := None; trace := t0 |}
         = Some {| glob := None; trace := t0 ++ t |}.

End Census.

(** ** Properties *)

Section Properties.

Context {Error Configuration : Type}.
Variable C : Collaborators Error Configuration.
Variable self : arguments.

Local Abbreviation state := (state Error Configuration).
Local Abbreviation event := (event Error Configuration).
Local Abbreviation file_events := (@file_events Error Configuration).

(** *** The trace only grows by [emit] *)

Lemma emit_extend (e : event) (st : state) : emit e st = extend [e] st.
Proof. reflexivity. Qed.

Lemma extend_extend (a b : list event) (st : state) :
  extend b (extend a st) = extend (a ++ b) st.
Proof. unfold extend; simpl. now rewrite app_assoc. Qed.

Lemma extend_nil (st : state) : extend [] st = st.
Proof. destruct st; unfold extend; simpl. now rewrite app_nil_r. Qed.

Lemma fallbacks_app (a b : list event) :
  fallbacks (a ++ b) = fallbacks a + fallbacks b.
Proof. unfold fallbacks. now rewrite filter_app, length_app. Qed.

Lemma file_events_quiet (error_threshold : option Z)
      (files : list (string * list Error)) :
  fallbacks (flat_map (file_events error_threshold) files) = 0.
Proof.
  induction files as [|file files IH]; [reflexivity|].
  simpl. rewrite fallbacks_app, IH.
  unfold file_events. now destruct (exceeds _ _).
Qed.

(** *** The threshold loop *)

(** Files that stay within the glob threshold are handled one by one and
    the loop runs to its end. *)
Lemma evaluate_thresholds_within
      (run : state -> option state) (glob_threshold error_threshold : option Z)
      (files : list (string * list Error)) (st : state) :
  Forall (fun file =>
            exceeds glob_threshold (Z.of_nat (List.length (snd file))) = false)
         files ->
  evaluate_thresholds run glob_threshold error_threshold files st
  = Next (extend (flat_map (file_events error_threshold) files) st).
Proof.
  intros Hfiles. revert st.
  induction Hfiles as [|[path errors] files Hfile _ IH]; intros st.
  - simpl. now rewrite extend_nil.
  - simpl in *. rewrite Hfile.
    unfold file_events at 1; simpl.
    destruct (exceeds error_threshold _); rewrite IH, !emit_extend,
      !extend_extend; reflexivity.
Qed.

Lemma evaluate_thresholds_app
      (run : state -> option state) (glob_threshold error_threshold : option Z)
      (pre rest : list (string * list Error)) (st : state) :
  Forall (fun file =>
            exceeds glob_threshold (Z.of_nat (List.length (snd file))) = false)
         pre ->
  evaluate_thresholds run glob_threshold error_threshold (pre ++ rest) st
  = evaluate_thresholds run glob_threshold error_threshold rest
      (extend (flat_map (file_events error_threshold) pre) st).
Proof.
  intros Hpre. revert st.
  induction Hpre as [|[path errors] files Hfile _ IH]; intros st.
  - simpl. now rewrite extend_nil.
  - simpl in *. rewrite Hfile.
    unfold file_events at 1; simpl.
    destruct (exceeds error_threshold _); rewrite IH, !emit_extend,
      !extend_extend; reflexivity.
Qed.

Lemma exceeds_falsy (threshold : option Z) (error_count : Z) :
  Py.truthy threshold = false -> exceeds threshold error_count = false.
Proof.
  destruct threshold as [n|]; simpl; [|reflexivity].
  now intros ->.
Qed.

Lemma exceeds_spec (n error_count : Z) :
  exceeds (Some n) error_count = true <-> (n <> 0 /\ n < error_count)%Z.
Proof.
  unfold exceeds. rewrite andb_true_iff, negb_true_iff, Z.eqb_neq, Z.ltb_lt.
  reflexivity.
Qed.

(** *** Discovery and mode selection *)

Lemma convert_directory_without_targets
      (run : state -> option state) (directory : string) (st : state) :
  find_targets C (trace st) directory (pyre_only self) = [] ->
  convert_directory C self run directory st
  = Some (extend [Log WARNING "No configuration created because no targets found."
                      []] st).
Proof.
  intros Hnone. unfold convert_directory. now rewrite Hnone.
Qed.

(** C8.  When target discovery finds nothing under a directory, its
    conversion ends normally and the only effect is the warning: no
    configuration is written or merged, no build file is stripped, the
    checker is not run, nothing is suppressed, and the command state is
    otherwise untouched, so the run goes on. *)
Theorem no_targets_is_a_skip
        (run : state -> option state) (directory : string) (st : state) :
  find_targets C (trace st) directory (pyre_only self) = [] ->
  convert_directory C self run directory st
  = Some {| glob := glob st;
            trace := trace st
                     ++ [Log WARNING
                             "No configuration created because no targets found."
                             []] |}.
Proof.
  intros Hnone. now rewrite convert_directory_without_targets.
Qed.

Lemma explicit_targets (all_targets : list (string * list string))
      (new_targets targets_files : list string) :
  fold_left (explicit_step C) all_targets (new_targets, targets_files)
  = (new_targets
       ++ flat_map (fun item =>
                      map (fun name => ("//" ++ fst item ++ ":" ++ name)%string)
                          (snd item))
                   all_targets,
     targets_files
       ++ map (fun item => joinpath C (Path C (fst item)) "TARGETS") all_targets).
Proof.
  revert new_targets targets_files.
  induction all_targets as [|[path names] rest IH]; intros new_targets targets_files.
  - simpl. now rewrite !app_nil_r.
  - simpl. rewrite IH. now rewrite <- !app_assoc.
Qed.

Lemma check_directory_unfold
      (directory : string) (all_targets : list (string * list string))
      (st : state) :
  check_directory C directory all_targets st
  = let selected := select_targets C directory all_targets st in
    let written :=
      write_configuration C (joinpath C directory ".pyre_configuration.local")
                          (fst selected) st in
    (fst written,
     extend [Log INFO "Removing typing options from %s targets files"
                 [LInt (Z.of_nat (List.length (snd selected)))];
             SubprocessRun (remove_typing_fields_command (snd selected));
             RemoveNonPyreIgnores directory;
             GetErrors (fst written) None]
            (snd written)).
Proof.
  unfold check_directory.
  destruct (select_targets C directory all_targets st) as [new_targets files].
  simpl.
  destruct (write_configuration C _ new_targets st) as [configuration st1].
  simpl. unfold remove_target_typing_fields.
  now rewrite !emit_extend, !extend_extend.
Qed.

Lemma write_configuration_unfold
      (configuration_path : string) (new_targets : list string) (st : state) :
  write_configuration C configuration_path new_targets st
  = let notice :=
      Log WARNING
          ("Pyre project already exists at %s." ++ LF ++
           "                Amending targets to existing configuration.")%string
          [LStr configuration_path] in
    let amended :=
      deduplicate_targets
        C (add_targets
             C (Configuration_init
                  C configuration_path
                  (json_load C (trace st ++ [notice]) configuration_path))
             new_targets) in
    let fresh :=
      Configuration_init C configuration_path (targets_document new_targets) in
    if path_exists C (trace st) configuration_path
    then (amended, extend [notice; ConfigurationWrite amended] st)
    else (fresh,
          extend [Log INFO "Creating local configuration at %s."
                      [LStr configuration_path];
                  ConfigurationWrite fresh;
                  AddPaths [configuration_path]] st).
Proof.
  unfold write_configuration.
  destruct (path_exists C (trace st) configuration_path);
    rewrite !emit_extend, !extend_extend; reflexivity.
Qed.

(** C6 (as amended).  For a directory with discovered targets.  With a
    truthy [glob] the one new target is the wildcard [//<directory>/...] and
    the files handed to the stripper are the [**/TARGETS] entries the
    filesystem lists under the directory; otherwise there is one
    [//<path>:<name>] per discovered pair, in discovery order, and the
    stripped files are the [TARGETS] of the discovered paths.  What is written
    depends on the directory: without a configuration there, a document with
    exactly the new targets (and its path is added to the repository); with
    one, the loaded configuration with the new targets added and then
    deduplicated.  The conversion then strips the build files, removes the
    ignores, runs the checker on the written configuration and goes on with
    the threshold loop and the lint pass. *)
Theorem mode_selects_targets_and_build_files
        (run : state -> option state) (directory : string) (st : state)
        (first : string * list string) (others : list (string * list string)) :
  let all_targets := first :: others in
  let new_targets :=
    if Py.truthy (glob st) then [("//" ++ directory ++ "/...")%string]
    else flat_map (fun item =>
                     map (fun name => ("//" ++ fst item ++ ":" ++ name)%string)
                         (snd item))
                  all_targets in
  let targets_files :=
    if Py.truthy (glob st)
    then map (joinpath C directory)
             (filesystem_list C (trace st) directory ["**/TARGETS"])
    else map (fun item => joinpath C (Path C (fst item)) "TARGETS") all_targets in
  let configuration_path := joinpath C directory ".pyre_configuration.local" in
  let notice :=
    Log WARNING
        ("Pyre project already exists at %s." ++ LF ++
         "                Amending targets to existing configuration.")%string
        [LStr configuration_path] in
  let configuration :=
    if path_exists C (trace st) configuration_path
    then deduplicate_targets
           C (add_targets
                C (Configuration_init
                     C configuration_path
                     (json_load C (trace st ++ [notice]) configuration_path))
                new_targets)
    else Configuration_init
           C configuration_path
           (JObject [("targets", JArray (map JString new_targets))]) in
  let written :=
    if path_exists C (trace st) configuration_path
    then [notice; ConfigurationWrite configuration]
    else [Log INFO "Creating local configuration at %s."
              [LStr configuration_path];
          ConfigurationWrite configuration;
          AddPaths [configuration_path]] in
  let checked :=
    extend (written
              ++ [Log INFO "Removing typing options from %s targets files"
                      [LInt (Z.of_nat (List.length targets_files))];
                  SubprocessRun
                    (["sed"; "-i";
                      "/typing \?=.*\|check_types \?=.*\|check_types_options \?=.*\|typing_options \?=.*/d"]
                       ++ targets_files);
                  RemoveNonPyreIgnores directory;
                  GetErrors configuration None])
           st in
  find_targets C (trace st) directory (pyre_only self) = first :: others ->
  select_targets C directory all_targets st = (new_targets, targets_files)
  /\ check_directory C directory all_targets st = (configuration, checked)
  /\ convert_directory C self run directory st
     = match evaluate_thresholds
               run (glob st) (fixme_threshold self)
               (get_errors C (trace checked) configuration None) checked with
       | Return result => result
       | Next st' => Some (lint_pass C self configuration st')
       end.
Proof.
  intros all_targets new_targets targets_files configuration_path notice
         configuration written checked Htargets.
  assert (Hsel : select_targets C directory all_targets st
                 = (new_targets, targets_files)).
  { unfold select_targets, new_targets, targets_files.
    destruct (Py.truthy (glob st)); [reflexivity|].
    now rewrite explicit_targets. }
  assert (Hcheck : check_directory C directory all_targets st
                   = (configuration, checked)).
  { rewrite check_directory_unfold. cbv zeta. rewrite Hsel. cbn [fst snd].
    rewrite write_configuration_unfold. cbv zeta.
    unfold checked, written, configuration.
    fold configuration_path. fold notice.
    destruct (path_exists C (trace st) configuration_path);
      cbn [fst snd]; now rewrite extend_extend. }
  refine (conj Hsel (conj Hcheck _)).
  unfold convert_directory. rewrite Htargets. fold all_targets.
  rewrite Hcheck. unfold checked. reflexivity.
Qed.

(** *** Writing the configuration *)

(** C7.  The write step of a directory's conversion.  When the local
    configuration exists it is loaded, the new targets are added, the targets
    are deduplicated and the result is written, and the repository is not told
    of any path; otherwise a document holding just the new targets is written
    and its path is added to the repository. *)
Theorem write_amends_or_creates
        (configuration_path : string) (new_targets : list string) (st : state) :
  let notice :=
    Log WARNING
        ("Pyre project already exists at %s." ++ LF ++
         "                Amending targets to existing configuration.")%string
        [LStr configuration_path] in
  let loaded :=
    Configuration_init C configuration_path
                       (json_load C (trace st ++ [notice]) configuration_path) in
  let amended := deduplicate_targets C (add_targets C loaded new_targets) in
  let fresh :=
    Configuration_init C configuration_path
                       (JObject [("targets", JArray (map JString new_targets))]) in
  write_configuration C configuration_path new_targets st
  = if path_exists C (trace st) configuration_path
    then (amended, extend [notice; ConfigurationWrite amended] st)
    else (fresh,
          extend [Log INFO "Creating local configuration at %s."
                      [LStr configuration_path];
                  ConfigurationWrite fresh;
                  AddPaths [configuration_path]] st).
Proof.
  intros notice loaded amended fresh.
  now rewrite write_configuration_unfold.
Qed.

(** *** Threshold boundaries *)

(** C3 (as amended).  With non-zero thresholds, negative ones included, the
    comparisons are strict.  For a file that does not trigger the glob
    fallback, a count up to the fixme threshold (so also one equal to it) is
    suppressed inline and any larger count (so also threshold + 1) gets the
    file-level ignore.  A count up to the glob threshold (so also one equal
    to it) does not fall back and the file is handled by the fixme rule; any
    larger count reverts the working copy, clears [glob] and re-enters
    [run].  Each of the four cases holds under its own conditions alone. *)
Theorem thresholds_are_strict
        (run : state -> option state) (glob_threshold error_threshold : option Z)
        (f g : Z) (path : string) (rest : list (string * list Error))
        (st : state) :
  (forall inline : list Error,
      (Z.of_nat (List.length inline) <= f)%Z ->
      exceeds glob_threshold (Z.of_nat (List.length inline)) = false ->
      evaluate_thresholds run glob_threshold (Some f) ((path, inline) :: rest) st
      = evaluate_thresholds run glob_threshold (Some f) rest
          (extend [SuppressErrors inline] st))
  /\ (forall ignored : list Error,
         f <> 0%Z ->
         (f < Z.of_nat (List.length ignored))%Z ->
         exceeds glob_threshold (Z.of_nat (List.length ignored)) = false ->
         evaluate_thresholds run glob_threshold (Some f)
                             ((path, ignored) :: rest) st
         = evaluate_thresholds run glob_threshold (Some f) rest
             (extend [Log INFO
                          "%d errors found in `%s`. Adding file-level ignore."
                          [LInt (Z.of_nat (List.length ignored)); LStr path];
                      AddLocalMode path IGNORE] st))
  /\ (forall kept : list Error,
         (Z.of_nat (List.length kept) <= g)%Z ->
         evaluate_thresholds run (Some g) error_threshold ((path, kept) :: rest) st
         = evaluate_thresholds run (Some g) error_threshold rest
             (extend (if exceeds error_threshold (Z.of_nat (List.length kept))
                      then [Log INFO
                                "%d errors found in `%s`. Adding file-level ignore."
                                [LInt (Z.of_nat (List.length kept)); LStr path];
                            AddLocalMode path IGNORE]
                      else [SuppressErrors kept])
                     st))
  /\ (forall fell : list Error,
         g <> 0%Z ->
         (g < Z.of_nat (List.length fell))%Z ->
         evaluate_thresholds run (Some g) error_threshold ((path, fell) :: rest) st
         = Return
             (run {| glob := None;
                     trace := trace st
                              ++ [Log INFO
                                      "Exceeding error threshold of %d; falling back to listing individual targets."
                                      [LInt g];
                                  RevertAll true] |})).
Proof.
  repeat split.
  - intros inline Hinline Hglob.
    assert (Hin : exceeds (Some f) (Z.of_nat (List.length inline)) = false).
    { apply not_true_is_false. rewrite exceeds_spec. lia. }
    cbn [evaluate_thresholds]. now rewrite Hglob, Hin.
  - intros ignored Hf Hignored Hglob.
    assert (Hig : exceeds (Some f) (Z.of_nat (List.length ignored)) = true).
    { rewrite exceeds_spec. lia. }
    cbn [evaluate_thresholds]. rewrite Hglob, Hig.
    now rewrite !emit_extend, !extend_extend.
  - intros kept Hkept.
    assert (Hke : exceeds (Some g) (Z.of_nat (List.length kept)) = false).
    { apply not_true_is_false. rewrite exceeds_spec. lia. }
    cbn [evaluate_thresholds]. rewrite Hke.
    destruct (exceeds error_threshold _);
      now rewrite !emit_extend, ?extend_extend.
  - intros fell Hg Hfell.
    assert (Hfe : exceeds (Some g) (Z.of_nat (List.length fell)) = true).
    { rewrite exceeds_spec. lia. }
    cbn [evaluate_thresholds]. rewrite Hfe. unfold set_glob, emit. simpl.
    now rewrite <- app_assoc.
Qed.

(** *** Skipped directories *)

Lemma skip_below_converted
      (run : state -> option state) (directory : string)
      (rest converted : list string) (st : state) :
  In directory converted ->
  convert_directories C self run rest converted st
  = convert_directories C self run
      (filter (fun later => negb (Py.startswith later directory)) rest)
      converted st.
Proof.
  revert converted st.
  induction rest as [|later rest IH]; intros converted st Hin; [reflexivity|].
  simpl. destruct (Py.startswith later directory) eqn:Hpre; simpl.
  - assert (Hskip : not_converted converted later = false).
    { apply not_true_is_false. unfold not_converted.
      rewrite forallb_forall. intros Hall.
      specialize (Hall directory Hin). rewrite Hpre in Hall. discriminate. }
    rewrite Hskip. now apply IH.
  - destruct (not_converted converted later).
    + destruct (convert_directory C self run later st); [|reflexivity].
      apply IH. apply in_or_app. now left.
    + now apply IH.
Qed.

(** *** Filling the gaps in coverage *)

Lemma uncovered_spec (known : list string) (subdirectory : string) :
  uncovered known subdirectory
  = negb (existsb (fun configuration_directory =>
                     String.prefix subdirectory configuration_directory)
                  known).
Proof.
  unfold uncovered, Py.startswith.
  induction known as [|c known IH]; [reflexivity|].
  simpl. rewrite IH. now rewrite negb_orb.
Qed.

Lemma add_missing_filter (known subdirectories missing : list string) :
  fold_left (add_missing known) subdirectories missing
  = missing ++ filter (uncovered known) subdirectories.
Proof.
  revert missing.
  induction subdirectories as [|sub subs IH]; intros missing.
  - simpl. now rewrite app_nil_r.
  - simpl. rewrite IH. unfold add_missing.
    destruct (uncovered known sub); [|reflexivity].
    now rewrite <- app_assoc.
Qed.

Lemma fill_follows_enumeration
      (t : list event) (known : list string) (walk : list (list string))
      (depth : nat) (listed : list string) :
  fold_left (fill_step C t known) walk (depth, filter (uncovered known) listed)
  = (fst (fold_left (enumerate_step C t) walk (depth, listed)),
     filter (uncovered known)
            (snd (fold_left (enumerate_step C t) walk (depth, listed)))).
Proof.
  revert depth listed.
  induction walk as [|directory walk IH]; intros depth listed; [reflexivity|].
  simpl. destruct (Nat.leb (List.length directory) depth).
  - apply IH.
  - rewrite add_missing_filter, <- filter_app. apply IH.
Qed.

(** C5.  The missing directories are, in listing order, exactly those
    enumerated subdirectories whose path string is not a prefix of any known
    configuration directory; the test is [str.startswith] on the rendered
    paths and knows nothing of path components. *)
Theorem missing_are_the_uncovered (t : list event) (known : list string) :
  missing_directories C t known
  = filter (fun subdirectory =>
              negb (existsb (fun configuration_directory =>
                               String.prefix subdirectory configuration_directory)
                            known))
           (enumerated_subdirectories C t known).
Proof.
  unfold missing_directories, enumerated_subdirectories.
  rewrite (fill_follows_enumeration t known _ 1 []). simpl.
  apply filter_ext. intros subdirectory. apply uncovered_spec.
Qed.

(** *** The order of the coverage set *)

Lemma list_ltb_asym (a b : list string) :
  Py.list_ltb a b = true -> Py.list_ltb b a = false.
Proof.
  revert b. induction a as [|x a IH]; intros [|y b]; simpl; try easy.
  rewrite (String.compare_antisym y x).
  destruct (String.compare x y); simpl; try easy. apply IH.
Qed.

Lemma key_ltb_asym (a b : list string) :
  Py.key_ltb a b = true -> Py.key_ltb b a = false.
Proof.
  unfold Py.key_ltb.
  destruct (Nat.ltb_spec (List.length a) (List.length b)) as [Hab|Hab].
  - intros _. destruct (Nat.ltb_spec (List.length b) (List.length a)); [lia|].
    reflexivity.
  - destruct (Nat.ltb_spec (List.length b) (List.length a)); [easy|].
    apply list_ltb_asym.
Qed.

Lemma key_le_length (a b : list string) :
  Py.key_le a b -> List.length a <= List.length b.
Proof.
  unfold Py.key_le, Py.key_ltb.
  destruct (Nat.ltb_spec (List.length b) (List.length a)); [easy|lia].
Qed.

Lemma insert_head (x y : list string) (l : list (list string)) :
  Py.key_le y x -> HdRel Py.key_le y l ->
  HdRel Py.key_le y (Py.insert Py.key_ltb x l).
Proof.
  intros Hyx Hhd. destruct l as [|z l]; simpl.
  - now constructor.
  - destruct (Py.key_ltb z x); constructor; [|exact Hyx].
    now inversion Hhd.
Qed.

Lemma insert_sorted (x : list string) (l : list (list string)) :
  Sorted Py.key_le l -> Sorted Py.key_le (Py.insert Py.key_ltb x l).
Proof.
  induction 1 as [|y l Hsorted IH Hhd]; simpl.
  - repeat constructor.
  - destruct (Py.key_ltb y x) eqn:Hlt.
    + constructor; [exact IH|].
      apply insert_head; [|exact Hhd].
      now apply key_ltb_asym.
    + constructor; [now constructor|]. constructor. exact Hlt.
Qed.

Lemma sorted_is_sorted (l : list (list string)) :
  Sorted Py.key_le (Py.sorted Py.key_ltb l).
Proof.
  induction l as [|x l IH]; simpl; [constructor|]. now apply insert_sorted.
Qed.

Lemma insert_permutation (x : list string) (l : list (list string)) :
  Permutation (x :: l) (Py.insert Py.key_ltb x l).
Proof.
  induction l as [|y l IH]; simpl; [reflexivity|].
  destruct (Py.key_ltb y x); [|reflexivity].
  rewrite perm_swap. now constructor.
Qed.

Lemma sorted_permutation (l : list (list string)) :
  Permutation l (Py.sorted Py.key_ltb l).
Proof.
  induction l as [|x l IH]; simpl; [constructor|].
  rewrite <- insert_permutation. now constructor.
Qed.

Lemma sorted_by_depth (l : list (list string)) :
  Sorted Py.key_le l ->
  StronglySorted (fun a b => List.length a <= List.length b) l.
Proof.
  intros Hsorted. apply Sorted_StronglySorted.
  - intros a b c. apply Nat.le_trans.
  - induction Hsorted as [|y l _ IH Hhd]; constructor; [exact IH|].
    destruct Hhd; constructor. now apply key_le_length.
Qed.

(** C4 (as amended).  The resolver sorts a copy of the known directories,
    split into components, by (number of components, components), and walks
    that copy, shallower directories first, to fill the gaps.  The list it
    returns is not that copy: it is the known directories in the order the
    file search reported them, followed by the missing directories in the
    order they were found (or the root alone when nothing is known). *)
Theorem walk_is_sorted_and_result_keeps_search_order
        (t : list event) (subdirectory : string) :
  let known := known_directories C t subdirectory in
  Sorted Py.key_le (sorted_directories known)
  /\ StronglySorted (fun a b => List.length a <= List.length b)
                    (sorted_directories known)
  /\ Permutation (map (Py.split "/") known) (sorted_directories known)
  /\ _gather_directories C t subdirectory
     = match known with
       | [] => [Path C subdirectory]
       | _ :: _ =>
           map (Path C) known ++ map (Path C) (missing_directories C t known)
       end.
Proof.
  intros known. repeat split.
  - apply sorted_is_sorted.
  - apply sorted_by_depth, sorted_is_sorted.
  - apply sorted_permutation.
  - unfold _gather_directories. fold known.
    destruct known as [|first others]; [reflexivity|].
    simpl. now rewrite map_app.
Qed.

(** *** Runs in which glob mode is off *)

(** Between discovery and the threshold loop the command performs effects
    that depend on the trace and on the truthiness of [glob] only, and none
    of them is a revert. *)
Lemma check_directory_shape
      (directory : string) (all_targets : list (string * list string))
      (t0 : list event) (mode : bool) :
  exists configuration t,
    fallbacks t = 0
    /\ forall g, Py.truthy g = mode ->
                 check_directory C directory all_targets
                                 {| glob := g; trace := t0 |}
                 = (configuration, {| glob := g; trace := t0 ++ t |}).
Proof.
  destruct (path_exists C t0 (joinpath C directory ".pyre_configuration.local"))
    eqn:Hexists;
    do 2 eexists; (split; cycle 1);
    try (intros g Hg; rewrite check_directory_unfold; cbv zeta;
         rewrite write_configuration_unfold; cbv zeta;
         unfold select_targets; cbn [glob trace]; rewrite Hg, Hexists;
         cbn [fst snd]; rewrite extend_extend; unfold extend; cbn [glob trace];
         reflexivity);
    reflexivity.
Qed.

Lemma lint_pass_shape (configuration : Configuration) (t0 : list event) :
  exists t,
    fallbacks t = 0
    /\ forall g, lint_pass C self configuration {| glob := g; trace := t0 |}
                 = {| glob := g; trace := t0 ++ t |}.
Proof.
  unfold lint_pass. destruct (lint self).
  - destruct (format C (t0 ++ [Format])) eqn:Hformat;
      eexists; (split; cycle 1);
      try (intros g; unfold emit; cbn [glob trace]; rewrite Hformat;
           rewrite <- ?app_assoc; reflexivity);
      reflexivity.
  - exists []. split; [reflexivity|]. intros g. now rewrite app_nil_r.
Qed.

Lemma submit_changes_falsy (subdirectory : string) (g : option Z)
      (t0 : list event) :
  Py.truthy g = false ->
  submit_changes C self subdirectory {| glob := g; trace := t0 |}
  = {| glob := g;
       trace := t0 ++ [SubmitChanges
                         (negb (no_commit self)) (submit self)
                         ("Convert type check targets in " ++ subdirectory
                            ++ " to use configuration")%string
                         (MIGRATION_SUMMARY C) false] |}.
Proof.
  intros Hg. unfold submit_changes, emit. cbn [glob trace].
  destruct g as [n|]; [|reflexivity].
  simpl in Hg. now rewrite Hg.
Qed.

(** With a falsy [glob] a directory's conversion always completes, never
    re-enters [run], and its effects, none of them a revert, depend on the
    trace alone. *)
Lemma convert_directory_falsy (directory : string) (t0 : list event) :
  exists t,
    fallbacks t = 0
    /\ forall run g,
      Py.truthy g = false ->
      convert_directory C self run directory {| glob := g; trace := t0 |}
      = Some {| glob := g; trace := t0 ++ t |}.
Proof.
  unfold convert_directory. cbn [trace].
  destruct (find_targets C t0 directory (pyre_only self)) as [|first others].
  - eexists. split; cycle 1.
    + intros run g _. reflexivity.
    + reflexivity.
  - destruct (check_directory_shape directory (first :: others) t0 false)
      as (configuration & t1 & Hquiet1 & Hcheck).
    destruct (lint_pass_shape
                configuration
                ((t0 ++ t1)
                   ++ flat_map (file_events (fixme_threshold self))
                               (get_errors C (t0 ++ t1) configuration None)))
      as (t2 & Hquiet2 & Hlint).
    eexists. split; cycle 1.
    + intros run g Hg. rewrite (Hcheck g Hg). cbn [glob trace].
      rewrite evaluate_thresholds_within.
      * unfold extend. cbn [glob trace]. rewrite Hlint.
        rewrite <- !app_assoc. reflexivity.
      * apply Forall_forall. intros file _. now apply exceeds_falsy.
    + now rewrite !fallbacks_app, file_events_quiet, Hquiet1, Hquiet2.
Qed.

Lemma convert_directories_falsy
      (directories converted : list string) (t0 : list event) :
  exists converted' t,
    fallbacks t = 0
    /\ forall run g,
      Py.truthy g = false ->
      convert_directories C self run directories converted
                          {| glob := g; trace := t0 |}
      = Some (converted', {| glob := g; trace := t0 ++ t |}).
Proof.
  revert converted t0.
  induction directories as [|directory rest IH]; intros converted t0.
  - exists converted, []. split; [reflexivity|].
    intros run g _. simpl. now rewrite app_nil_r.
  - simpl. destruct (not_converted converted directory).
    + destruct (convert_directory_falsy directory t0) as (t1 & Hquiet1 & Hone).
      destruct (IH (converted ++ [directory]) (t0 ++ t1))
        as (converted' & t2 & Hquiet2 & Hrest).
      exists converted', (t1 ++ t2). split.
      * now rewrite fallbacks_app, Hquiet1, Hquiet2.
      * intros run g Hg. rewrite (Hone run g Hg), (Hrest run g Hg).
        now rewrite app_assoc.
    + apply IH.
Qed.

Lemma run_body_falsy (t0 : list event) :
  exists t,
    fallbacks t = 0
    /\ forall run g,
      Py.truthy g = false ->
      run_body C self run {| glob := g; trace := t0 |}
      = Some {| glob := g; trace := t0 ++ t |}.
Proof.
  unfold run_body, emit. cbn [trace glob].
  set (root := match subdirectory self with
               | Some s => if negb (String.eqb s "") then Path C s else cwd C t0
               | None => cwd C t0
               end).
  set (start := Log INFO _ [LStr root]).
  destruct (convert_directories_falsy
              (_gather_directories C (t0 ++ [start]) root) [] (t0 ++ [start]))
    as (converted' & t1 & Hquiet & Hloop).
  eexists. split; cycle 1.
  - intros run g Hg. rewrite (Hloop run g Hg).
    rewrite (submit_changes_falsy root g _ Hg).
    rewrite <- !app_assoc. reflexivity.
  - cbn [app]. change (start :: t1 ++ ?l) with ([start] ++ t1 ++ l).
    rewrite !fallbacks_app, Hquiet. reflexivity.
Qed.

Lemma run_falsy (t0 : list event) :
  exists t,
    fallbacks t = 0
    /\ forall fuel g,
      Py.truthy g = false ->
      run C self (S fuel) {| glob := g; trace := t0 |}
      = Some {| glob := g; trace := t0 ++ t |}.
Proof.
  destruct (run_body_falsy t0) as (t & Hquiet & Hbody).
  exists t. split; [exact Hquiet|].
  intros fuel g Hg. simpl. now apply Hbody.
Qed.

(** *** Runs in which the glob fallback may fire *)

Lemma evaluate_thresholds_cases
      (run : state -> option state) (glob_threshold error_threshold : option Z)
      (files : list (string * list Error)) (st : state) :
  evaluate_thresholds run glob_threshold error_threshold files st
  = Next (extend (flat_map (file_events error_threshold) files) st)
  \/ exists pre,
      evaluate_thresholds run glob_threshold error_threshold files st
      = Return
          (run {| glob := None;
                  trace :=
                    trace st
                      ++ flat_map (file_events error_threshold) pre
                      ++ [Log INFO
                              "Exceeding error threshold of %d; falling back to listing individual targets."
                              [LInt (match glob_threshold with
                                     | Some n => n
                                     | None => 0%Z
                                     end)];
                          RevertAll true] |}).
Proof.
  revert st. induction files as [|[path errors] files IH]; intros st.
  - left. simpl. now rewrite extend_nil.
  - destruct (exceeds glob_threshold (Z.of_nat (List.length errors))) eqn:Hglob.
    + right. exists []. cbn [evaluate_thresholds]. rewrite Hglob.
      unfold set_glob, emit. cbn [glob trace flat_map app].
      now rewrite <- app_assoc.
    + change ((path, errors) :: files) with ([(path, errors)] ++ files).
      rewrite evaluate_thresholds_app by (constructor; [exact Hglob|constructor]).
      destruct (IH (extend (flat_map (file_events error_threshold)
                                     [(path, errors)]) st))
        as [Hnext | (pre & Hreturn)].
      * left. rewrite Hnext, extend_extend, <- flat_map_app. reflexivity.
      * right. exists ((path, errors) :: pre). rewrite Hreturn.
        unfold extend. cbn [glob trace].
        change ((path, errors) :: pre) with ([(path, errors)] ++ pre).
        rewrite flat_map_app, <- !app_assoc. reflexivity.
Qed.

Lemma convert_directory_progress
      (rerun : state -> option state) (directory : string) (st : state) :
  restartable rerun ->
  exists st',
    convert_directory C self rerun directory st = Some st'
    /\ (quiet st st' \/ fell st st').
Proof.
  intros Hrerun. destruct st as [g t0].
  destruct (Py.truthy g) eqn:Hmode; cycle 1.
  { destruct (convert_directory_falsy directory t0) as (t & Hquiet & Hconvert).
    eexists. split; [apply (Hconvert rerun g Hmode)|].
    left. split; [reflexivity|]. cbn [trace].
    rewrite fallbacks_app, Hquiet. lia. }
  unfold convert_directory. cbn [trace].
  destruct (find_targets C t0 directory (pyre_only self)) as [|first others].
  { eexists. split; [reflexivity|]. left. split; [reflexivity|].
    unfold emit. cbn [trace]. rewrite fallbacks_app. cbn. lia. }
  destruct (check_directory_shape directory (first :: others) t0 true)
    as (configuration & t1 & Hquiet1 & Hcheck).
  rewrite (Hcheck g Hmode). cbn [glob trace].
  destruct (evaluate_thresholds_cases
              rerun g (fixme_threshold self)
              (get_errors C (t0 ++ t1) configuration None)
              {| glob := g; trace := t0 ++ t1 |})
    as [Hnext | (pre & Hreturn)].
  - rewrite Hnext. unfold extend. cbn [glob trace].
    destruct (lint_pass_shape
                configuration
                ((t0 ++ t1)
                   ++ flat_map (file_events (fixme_threshold self))
                               (get_errors C (t0 ++ t1) configuration None)))
      as (t2 & Hquiet2 & Hlint).
    rewrite Hlint. eexists. split; [reflexivity|].
    left. split; [reflexivity|]. cbn [trace].
    rewrite !fallbacks_app, file_events_quiet, Hquiet1, Hquiet2. lia.
  - rewrite Hreturn. cbn [trace].
    destruct (Hrerun ((t0 ++ t1)
                        ++ flat_map (file_events (fixme_threshold self)) pre
                        ++ [Log INFO
                                "Exceeding error threshold of %d; falling back to listing individual targets."
                                [LInt (match g with
                                       | Some n => n
                                       | None => 0%Z
                                       end)];
                            RevertAll true]))
      as (t2 & Hquiet2 & Hrun).
    rewrite Hrun. eexists. split; [reflexivity|].
    right. split; [exact Hmode|]. split; [reflexivity|]. cbn [trace].
    rewrite !fallbacks_app, file_events_quiet, Hquiet1, Hquiet2. cbn. lia.
Qed.

Lemma progress_trans (st st1 st2 : state) :
  quiet st st1 \/ fell st st1 ->
  quiet st1 st2 \/ fell st1 st2 ->
  quiet st st2 \/ fell st st2.
Proof.
  unfold quiet, fell.
  intros [[Hg1 Hf1] | (Hm1 & Hg1 & Hf1)] [[Hg2 Hf2] | (Hm2 & Hg2 & Hf2)].
  - left. split; congruence.
  - right. rewrite Hg1 in Hm2. repeat split; congruence.
  - right. repeat split; congruence.
  - rewrite Hg1 in Hm2. discriminate.
Qed.

Lemma convert_directories_progress
      (rerun : state -> option state) (directories converted : list string)
      (st : state) :
  restartable rerun ->
  exists converted' st',
    convert_directories C self rerun directories converted st
    = Some (converted', st')
    /\ (quiet st st' \/ fell st st').
Proof.
  intros Hrerun. revert converted st.
  induction directories as [|directory rest IH]; intros converted st.
  - exists converted, st. split; [reflexivity|]. left. now split.
  - simpl. destruct (not_converted converted directory); [|apply IH].
    destruct (convert_directory_progress directory st Hrerun)
      as (st1 & Hone & Hstep1).
    rewrite Hone.
    destruct (IH (converted ++ [directory]) st1)
      as (converted' & st2 & Hrest & Hstep2).
    exists converted', st2. split; [exact Hrest|].
    eapply progress_trans; eassumption.
Qed.

Lemma submit_changes_quiet (subdirectory : string) (st : state) :
  quiet st (submit_changes C self subdirectory st).
Proof.
  unfold quiet, submit_changes, emit. cbn [glob trace].
  split; [reflexivity|]. rewrite fallbacks_app. cbn. lia.
Qed.

Lemma run_body_progress (rerun : state -> option state) (st : state) :
  restartable rerun ->
  exists st',
    run_body C self rerun st = Some st' /\ (quiet st st' \/ fell st st').
Proof.
  intros Hrerun. unfold run_body.
  set (root := match subdirectory self with
               | Some s =>
                   if negb (String.eqb s "") then Path C s else cwd C (trace st)
               | None => cwd C (trace st)
               end).
  set (st0 := emit (Log INFO _ [LStr root]) st).
  destruct (convert_directories_progress
              (_gather_directories C (trace st0) root) [] st0 Hrerun)
    as (converted' & st1 & Hloop & Hstep).
  rewrite Hloop. eexists. split; [reflexivity|].
  assert (Hstart : quiet st st0 \/ fell st st0).
  { left. unfold quiet, st0, emit. cbn [glob trace].
    split; [reflexivity|]. rewrite fallbacks_app. cbn. lia. }
  eapply progress_trans; [eapply progress_trans; eassumption|].
  left. apply submit_changes_quiet.
Qed.

Lemma run_restartable (fuel : nat) : restartable (run C self (S fuel)).
Proof.
  intros t0. destruct (run_falsy t0) as (t & Hquiet & Hrun).
  exists t. split; [exact Hquiet|]. now apply Hrun.
Qed.

(** *** The re-entered [run] only matters with glob mode off *)

Lemma evaluate_thresholds_agree
      (run run' : state -> option state) (glob_threshold error_threshold : option Z)
      (files : list (string * list Error)) (st : state) :
  agree run run' ->
  evaluate_thresholds run glob_threshold error_threshold files st
  = evaluate_thresholds run' glob_threshold error_threshold files st.
Proof.
  intros Hagree. revert st.
  induction files as [|[path errors] files IH]; intros st; [reflexivity|].
  cbn [evaluate_thresholds].
  destruct (exceeds glob_threshold _).
  - f_equal. now apply Hagree.
  - destruct (exceeds error_threshold _); apply IH.
Qed.

Lemma convert_directory_agree
      (run run' : state -> option state) (directory : string) (st : state) :
  agree run run' ->
  convert_directory C self run directory st
  = convert_directory C self run' directory st.
Proof.
  intros Hagree. unfold convert_directory.
  destruct (find_targets C (trace st) directory (pyre_only self));
    [reflexivity|].
  destruct (check_directory C directory _ st) as [configuration st1].
  now rewrite (evaluate_thresholds_agree _ _ _ _ Hagree).
Qed.

Lemma convert_directories_agree
      (run run' : state -> option state) (directories converted : list string)
      (st : state) :
  agree run run' ->
  convert_directories C self run directories converted st
  = convert_directories C self run' directories converted st.
Proof.
  intros Hagree. revert converted st.
  induction directories as [|directory rest IH]; intros converted st;
    [reflexivity|].
  simpl. destruct (not_converted converted directory); [|apply IH].
  rewrite (convert_directory_agree directory st Hagree).
  destruct (convert_directory C self run' directory st); [apply IH|reflexivity].
Qed.

Lemma run_body_agree (run run' : state -> option state) (st : state) :
  agree run run' -> run_body C self run st = run_body C self run' st.
Proof.
  intros Hagree. unfold run_body.
  now rewrite (convert_directories_agree _ _ _ Hagree).
Qed.

Lemma run_agree (fuel fuel' : nat) :
  agree (run C self (S fuel)) (run C self (S fuel')).
Proof.
  intros [g t0]. cbn [glob]. intros ->.
  destruct (run_falsy t0) as (t & _ & Hrun).
  now rewrite !Hrun.
Qed.

(** *** The glob fallback *)

(** C1 (as amended).  With a non-zero [glob] threshold, at the first file of
    the report whose error count is above the threshold the conversion logs
    the fallback, reverts the working copy with [remove_untracked=True],
    sets [glob] to [None] and re-enters [run] from its first line; what the
    conversion returns is what that run returns.  The re-entered run
    completes with [glob] still [None] and without another revert. *)
Theorem glob_fallback_reverts_and_restarts
        (fuel : nat) (directory : string) (st : state) (g : Z)
        (first : string * list string) (others : list (string * list string))
        (pre : list (string * list Error)) (path : string) (errors : list Error)
        (post : list (string * list Error)) :
  let checked := check_directory C directory (first :: others) st in
  let fallen :=
    {| glob := None;
       trace := trace (snd checked)
                ++ flat_map (file_events (fixme_threshold self)) pre
                ++ [Log INFO
                        "Exceeding error threshold of %d; falling back to listing individual targets."
                        [LInt g];
                    RevertAll true] |} in
  glob st = Some g -> g <> 0%Z ->
  find_targets C (trace st) directory (pyre_only self) = first :: others ->
  get_errors C (trace (snd checked)) (fst checked) None
  = pre ++ (path, errors) :: post ->
  Forall (fun file => (Z.of_nat (List.length (snd file)) <= g)%Z) pre ->
  (g < Z.of_nat (List.length errors))%Z ->
  convert_directory C self (run C self fuel) directory st
  = run C self fuel fallen
  /\ forall n, exists final,
      run C self (S n) fallen = Some final
      /\ glob final = None
      /\ fallbacks (trace final) = fallbacks (trace fallen).
Proof.
  intros checked fallen Hglob Hg Htargets Hreport Hpre Herrors. split.
  - unfold convert_directory. rewrite Htargets. fold checked.
    assert (Hsame : glob (snd checked) = Some g).
    { destruct st as [g0 t0]. cbn [glob] in Hglob. subst g0.
      destruct (check_directory_shape directory (first :: others) t0
                                      (Py.truthy (Some g)))
        as (configuration & t1 & _ & Hcheck).
      unfold checked. now rewrite (Hcheck (Some g) eq_refl). }
    destruct checked as [configuration st1] eqn:Hchecked.
    cbn [fst snd] in *. rewrite Hreport, Hsame.
    rewrite evaluate_thresholds_app.
    + cbn [evaluate_thresholds].
      assert (Hfire : exceeds (Some g) (Z.of_nat (List.length errors)) = true).
      { rewrite exceeds_spec. lia. }
      rewrite Hfire. unfold fallen, set_glob, emit, extend. cbn [glob trace].
      now rewrite <- !app_assoc.
    + refine (Forall_impl _ _ Hpre). intros file Hfile.
      apply not_true_is_false. rewrite exceeds_spec. lia.
  - intros n. destruct (run_falsy (trace fallen)) as (t & Hquiet & Hrun).
    eexists. split; [apply (Hrun n None eq_refl)|].
    split; [reflexivity|]. cbn [trace]. rewrite fallbacks_app, Hquiet. lia.
Qed.

(** C2.  Whatever the state [run] starts in, one level of re-entry is
    enough for it to complete, more levels change nothing, and the completed
    run has reverted the working copy at most once.  A run started with
    [glob] set to [None], as the re-entered run is, completes without
    re-entering [run], never reverts, ends with [glob] still [None], and
    selects explicit targets for every directory. *)
Theorem fallback_fires_at_most_once (st : state) :
  exists final restarted,
    run C self 2 st = Some final
    /\ (forall n, run C self (2 + n) st = Some final)
    /\ fallbacks (trace final) <= S (fallbacks (trace st))
    /\ (forall n, run C self (S n) (set_glob None st) = Some restarted)
    /\ glob restarted = None
    /\ fallbacks (trace restarted) = fallbacks (trace st)
    /\ (forall directory all_targets t,
          select_targets C directory all_targets {| glob := None; trace := t |}
          = fold_left (explicit_step C) all_targets ([], [])).
Proof.
  destruct (run_body_progress st (run_restartable 0)) as (final & Hrun & Hstep).
  destruct (run_falsy (trace st)) as (t & Hquiet & Hrestart).
  exists final, {| glob := None; trace := trace st ++ t |}.
  split; [exact Hrun|]. split.
  { intros n. cbn [Nat.add]. change (run C self (S (S n)) st)
      with (run_body C self (run C self (S n)) st).
    rewrite (run_body_agree st (run_agree n 0)). exact Hrun. }
  split.
  { destruct Hstep as [[_ Hsame] | (_ & _ & Hone)]; lia. }
  split.
  { intros n. now apply Hrestart. }
  split; [reflexivity|]. split.
  { cbn [trace]. rewrite fallbacks_app, Hquiet. lia. }
  reflexivity.
Qed.

End Properties.

(** ** A threshold of zero *)

Section ZeroThreshold.

Context {Error Configuration : Type}.
Variable C : Collaborators Error Configuration.
Variable self : arguments.

Local Abbreviation state := (state Error Configuration).
Local Abbreviation event := (event Error Configuration).

Lemma evaluate_thresholds_zero
      (run : state -> option state) (glob_threshold : option Z)
      (files : list (string * list Error)) (st : state) :
  evaluate_thresholds run glob_threshold (Some 0%Z) files st
  = evaluate_thresholds run glob_threshold None files st.
Proof.
  revert st. induction files as [|[path errors] files IH]; intros st;
    [reflexivity|].
  cbn [evaluate_thresholds].
  destruct (exceeds glob_threshold _); [reflexivity|].
  change (exceeds (Some 0%Z) (Z.of_nat (List.length errors))) with false.
  change (exceeds None (Z.of_nat (List.length errors))) with false.
  cbv iota. apply IH.
Qed.

Lemma convert_directory_zero
      (run : state -> option state) (directory : string) (st : state) :
  convert_directory C (with_fixme_threshold (Some 0%Z) self) run directory st
  = convert_directory C (with_fixme_threshold None self) run directory st.
Proof.
  unfold convert_directory. cbn [with_fixme_threshold pyre_only fixme_threshold].
  destruct (find_targets C (trace st) directory (pyre_only self));
    [reflexivity|].
  destruct (check_directory C directory _ st) as [configuration st1].
  rewrite evaluate_thresholds_zero. reflexivity.
Qed.

Lemma convert_directories_zero
      (run : state -> option state) (directories converted : list string)
      (st : state) :
  convert_directories C (with_fixme_threshold (Some 0%Z) self) run
                      directories converted st
  = convert_directories C (with_fixme_threshold None self) run
                        directories converted st.
Proof.
  revert converted st.
  induction directories as [|directory rest IH]; intros converted st;
    [reflexivity|].
  simpl. destruct (not_converted converted directory); [|apply IH].
  rewrite convert_directory_zero.
  destruct (convert_directory C _ run directory st); [apply IH|reflexivity].
Qed.

Lemma run_zero (fuel : nat) (st : state) :
  run C (with_fixme_threshold (Some 0%Z) self) fuel st
  = run C (with_fixme_threshold None self) fuel st.
Proof.
  revert st. induction fuel as [|fuel IH]; intros st; [reflexivity|].
  cbn [run]. unfold run_body.
  cbn [with_fixme_threshold subdirectory].
  rewrite convert_directories_zero.
  rewrite (convert_directories_agree
             C (with_fixme_threshold None self)
             (run':=run C (with_fixme_threshold None self) fuel))
    by (intros s _; apply IH).
  reflexivity.
Qed.

End ZeroThreshold.

(** ** Further properties of the run loop *)

Section RunLoop.

Context {Error Configuration : Type}.
Variable C : Collaborators Error Configuration.
Variable self : arguments.

Local Abbreviation state := (state Error Configuration).
Local Abbreviation event := (event Error Configuration).

Lemma prefix_refl (s : string) : String.prefix s s = true.
Proof.
  induction s as [|c s IH]; [reflexivity|].
  simpl. now destruct (Ascii.ascii_dec c c).
Qed.

Lemma prefix_append (s suffix : string) :
  String.prefix s (s ++ suffix)%string = true.
Proof.
  induction s as [|c s IH]; simpl.
  - now destruct suffix.
  - now destruct (Ascii.ascii_dec c c).
Qed.

Lemma not_converted_true (converted : list string) (directory : string) :
  not_converted converted directory = true
  <-> Forall (fun c => Py.startswith directory c = false) converted.
Proof.
  unfold not_converted. rewrite forallb_forall, Forall_forall.
  split; intros H c Hc; specialize (H c Hc);
    destruct (Py.startswith directory c); easy.
Qed.

Lemma not_converted_false (converted : list string) (directory : string) :
  not_converted converted directory = false
  <-> exists c, In c converted /\ Py.startswith directory c = true.
Proof.
  unfold not_converted. split.
  - intros H. induction converted as [|c converted IH]; [discriminate|].
    simpl in H. destruct (Py.startswith directory c) eqn:Hc.
    + exists c. split; [now left|exact Hc].
    + simpl in H. destruct (IH H) as (c' & Hin & Hc').
      exists c'. split; [now right|exact Hc'].
  - intros (c & Hin & Hc). apply not_true_is_false.
    rewrite forallb_forall. intros Hall.
    specialize (Hall c Hin). rewrite Hc in Hall. discriminate.
Qed.

Lemma convert_directories_converted
      (run : state -> option state) (directories converted : list string)
      (st : state) (converted' : list string) (st' : state) :
  convert_directories C self run directories converted st
  = Some (converted', st') ->
  converted' = selected directories converted.
Proof.
  revert converted st.
  induction directories as [|directory rest IH]; intros converted st; simpl.
  - now intros [= <- _].
  - destruct (not_converted converted directory); [|apply IH].
    destruct (convert_directory C self run directory st) as [st1|];
      [apply IH|discriminate].
Qed.

(** X1.  Which directories a completed loop has converted is decided by the
    coverage list alone: [converted] ends as the greedy selection in which a
    directory is taken when no directory taken before it is a string prefix of
    it, whatever the conversions did (fallback included). *)
Theorem converted_is_the_greedy_selection
        (run : state -> option state) (directories converted : list string)
        (st : state) (converted' : list string) (st' : state) :
  convert_directories C self run directories converted st
  = Some (converted', st') ->
  converted' = selected directories converted.
Proof. apply convert_directories_converted. Qed.

Lemma selected_keeps (directories converted : list string) (c : string) :
  In c converted -> In c (selected directories converted).
Proof.
  revert converted.
  induction directories as [|directory rest IH]; intros converted Hin;
    [exact Hin|].
  simpl. destruct (not_converted converted directory); apply IH;
    [apply in_or_app; now left | exact Hin].
Qed.





Lemma selected_covers (directories converted : list string) (d : string) :
  In d directories ->
  exists c, In c (selected directories converted) /\ Py.startswith d c = true.
Proof.
  revert converted.
  induction directories as [|directory rest IH]; intros converted Hin;
    [destruct Hin|].
  simpl. destruct Hin as [<- | Hin].
  - destruct (not_converted converted directory) eqn:Hnew.
    + exists directory. split.
      * apply selected_keeps. apply in_or_app. right. now left.
      * apply prefix_refl.
    + apply not_converted_false in Hnew. destruct Hnew as (c & Hc & Hpre).
      exists c. split; [now apply selected_keeps|exact Hpre].
  - destruct (not_converted converted directory); now apply IH.
Qed.

(** X3.  When the run loop completes, every directory of the coverage list
    is a converted directory or has a converted directory as a string prefix
    of its path. *)
Theorem every_directory_is_covered
        (run : state -> option state) (directories converted : list string)
        (st : state) (converted' : list string) (st' : state) (d : string) :
  convert_directories C self run directories converted st
  = Some (converted', st') ->
  In d directories ->
  exists c, In c converted' /\ Py.startswith d c = true.
Proof.
  intros Hloop Hin. apply convert_directories_converted in Hloop.
  subst converted'. now apply selected_covers.
Qed.

(** X4.  The skip test looks at strings, not at path components: once a
    directory is converted, any later directory whose path merely extends its
    path string (a sibling such as [src/a2] after [src/a] as much as a
    subdirectory) is passed over without any effect. *)
Theorem longer_name_is_skipped
        (run : state -> option state) (directory suffix : string)
        (rest converted : list string) (st : state) :
  In directory converted ->
  convert_directories C self run ((directory ++ suffix)%string :: rest)
                      converted st
  = convert_directories C self run rest converted st.
Proof.
  intros Hin. simpl.
  assert (Hskip : not_converted converted (directory ++ suffix)%string = false).
  { apply not_converted_false. exists directory. split; [exact Hin|].
    apply prefix_append. }
  now rewrite Hskip.
Qed.

Lemma selected_tail (directories converted : list string) :
  exists tail,
    selected directories converted = converted ++ tail
    /\ Forall (fun x =>
                 In x directories
                 /\ Forall (fun c => Py.startswith x c = false) converted)
              tail.
Proof.
  revert converted.
  induction directories as [|directory rest IH]; intros converted.
  - exists []. split; [now rewrite app_nil_r|constructor].
  - cbn [selected]. destruct (not_converted converted directory) eqn:Hnew.
    + destruct (IH (converted ++ [directory])) as (tail & Hsel & Htail).
      exists (directory :: tail). split.
      * now rewrite Hsel, <- app_assoc.
      * constructor.
        -- split; [now left|]. now apply not_converted_true.
        -- refine (Forall_impl _ _ Htail). intros x [Hin Hfree].
           split; [now right|]. apply Forall_app in Hfree. tauto.
    + destruct (IH converted) as (tail & Hsel & Htail).
      exists tail. split; [exact Hsel|].
      refine (Forall_impl _ _ Htail). intros x [Hin Hfree].
      split; [now right|exact Hfree].
Qed.

(** C10.  A directory for which no targets are discovered is recorded in
    [converted] all the same.  Whatever [run] is re-entered, the loop goes on
    as if every later directory whose path string starts with its path string
    were not in the list.  And with [run] itself re-entered the loop
    completes: [converted] ends as the list it was, then the skipped
    directory, then directories of the rest of which none starts with the
    skipped directory's path string. *)
Theorem skipped_directory_counts_as_converted
        (rerun : state -> option state) (fuel : nat) (directory : string)
        (rest converted : list string) (st : state) :
  let warned :=
    extend [Log WARNING "No configuration created because no targets found." []]
           st in
  let remaining :=
    filter (fun later => negb (Py.startswith later directory)) rest in
  not_converted converted directory = true ->
  find_targets C (trace st) directory (pyre_only self) = [] ->
  convert_directories C self rerun (directory :: rest) converted st
  = convert_directories C self rerun remaining (converted ++ [directory]) warned
  /\ exists converted' final tail,
      convert_directories C self (run C self (S fuel)) (directory :: rest)
                          converted st
      = Some (converted', final)
      /\ convert_directories C self (run C self (S fuel)) remaining
                             (converted ++ [directory]) warned
         = Some (converted', final)
      /\ converted' = converted ++ directory :: tail
      /\ In directory converted'
      /\ Forall (fun later =>
                   In later rest /\ Py.startswith later directory = false)
                tail.
Proof.
  intros warned remaining Hnew Hnone.
  assert (Hstep : forall r,
             convert_directories C self r (directory :: rest) converted st
             = convert_directories C self r rest (converted ++ [directory])
                                   warned).
  { intros r. cbn [convert_directories]. rewrite Hnew.
    now rewrite (convert_directory_without_targets C self r directory st Hnone). }
  assert (Hskip : forall r,
             convert_directories C self r rest (converted ++ [directory]) warned
             = convert_directories C self r remaining (converted ++ [directory])
                                   warned).
  { intros r. apply skip_below_converted. apply in_or_app. right. now left. }
  split; [now rewrite Hstep, Hskip|].
  destruct (convert_directories_progress
              C self rest (converted ++ [directory]) warned
              (run_restartable C self fuel))
    as (converted' & final & Hloop & _).
  destruct (selected_tail rest (converted ++ [directory]))
    as (tail & Hsel & Htail).
  pose proof (convert_directories_converted _ _ _ _ Hloop) as Hconverted.
  exists converted', final, tail.
  split; [now rewrite Hstep|].
  split; [now rewrite <- Hskip|].
  assert (Hshape : converted' = converted ++ directory :: tail).
  { now rewrite Hconverted, Hsel, <- app_assoc. }
  split; [exact Hshape|]. split.
  - rewrite Hshape. apply in_or_app. right. now left.
  - refine (Forall_impl _ _ Htail). intros later [Hin Hfree].
    split; [exact Hin|]. apply Forall_app in Hfree.
    destruct Hfree as [_ Hlast]. now inversion Hlast.
Qed.

End RunLoop.

(** ** Further properties of a directory's conversion *)

Section Conversion.

Context {Error Configuration : Type}.
Variable C : Collaborators Error Configuration.
Variable self : arguments.

Local Abbreviation state := (state Error Configuration).
Local Abbreviation event := (event Error Configuration).
Local Abbreviation file_events := (@file_events Error Configuration).

(** X5.  A negative [glob] is truthy and below every count: the fallback
    fires at the first file of any non-empty report, even a file with no
    errors, and nothing is suppressed or ignored before it. *)
Theorem negative_glob_falls_back_at_once
        (run : state -> option state) (g : Z) (error_threshold : option Z)
        (path : string) (errors : list Error)
        (rest : list (string * list Error)) (st : state) :
  (g < 0)%Z ->
  evaluate_thresholds run (Some g) error_threshold ((path, errors) :: rest) st
  = Return
      (run {| glob := None;
              trace := trace st
                       ++ [Log INFO
                               "Exceeding error threshold of %d; falling back to listing individual targets."
                               [LInt g];
                           RevertAll true] |}).
Proof.
  intros Hg. cbn [evaluate_thresholds].
  assert (Hfire : exceeds (Some g) (Z.of_nat (List.length errors)) = true).
  { rewrite exceeds_spec. lia. }
  rewrite Hfire. unfold set_glob, emit. cbn [glob trace].
  now rewrite <- app_assoc.
Qed.

(** X6.  A negative fixme threshold, with glob mode off, puts the
    file-level ignore on every file of the report, files without errors
    included, and suppresses nothing inline. *)
Theorem negative_fixme_threshold_ignores_every_file
        (run : state -> option state) (glob_threshold : option Z) (f : Z)
        (files : list (string * list Error)) (st : state) :
  (f < 0)%Z ->
  Py.truthy glob_threshold = false ->
  evaluate_thresholds run glob_threshold (Some f) files st
  = Next (extend
            (flat_map
               (fun file =>
                  [Log INFO "%d errors found in `%s`. Adding file-level ignore."
                       [LInt (Z.of_nat (List.length (snd file))); LStr (fst file)];
                   AddLocalMode (fst file) IGNORE])
               files)
            st).
Proof.
  intros Hf Hglob. rewrite evaluate_thresholds_within.
  - f_equal. f_equal. apply flat_map_ext. intros file.
    unfold file_events.
    assert (Hover : exceeds (Some f) (Z.of_nat (List.length (snd file))) = true).
    { rewrite exceeds_spec. lia. }
    now rewrite Hover.
  - apply Forall_forall. intros file _. now apply exceeds_falsy.
Qed.

Lemma check_directory_keeps_glob
      (directory : string) (all_targets : list (string * list string))
      (st : state) :
  glob (snd (check_directory C directory all_targets st)) = glob st.
Proof.
  destruct st as [g t0].
  destruct (check_directory_shape C directory all_targets t0 (Py.truthy g))
    as (configuration & t & _ & Hcheck).
  now rewrite (Hcheck g eq_refl).
Qed.

(** X7.  A conversion in which no file exceeds the glob threshold runs to
    its end: after the write, the strip and the check, every file of the
    report gets its treatment, once and in report order (file-level ignore
    above the fixme threshold, inline suppression otherwise), then the lint
    pass runs; [run] is not re-entered. *)
Theorem conversion_without_fallback
        (run : state -> option state) (directory : string) (st : state)
        (first : string * list string) (others : list (string * list string)) :
  let checked := check_directory C directory (first :: others) st in
  let all_errors := get_errors C (trace (snd checked)) (fst checked) None in
  find_targets C (trace st) directory (pyre_only self) = first :: others ->
  Forall (fun file =>
            exceeds (glob st) (Z.of_nat (List.length (snd file))) = false)
         all_errors ->
  convert_directory C self run directory st
  = Some (lint_pass C self (fst checked)
                    (extend (flat_map (file_events (fixme_threshold self))
                                      all_errors)
                            (snd checked))).
Proof.
  intros checked all_errors Htargets Hwithin.
  unfold convert_directory. rewrite Htargets. fold checked.
  pose proof (check_directory_keeps_glob directory (first :: others) st)
    as Hglob.
  fold checked in Hglob. unfold all_errors in *.
  destruct checked as [configuration st1]. cbn [fst snd] in *.
  rewrite Hglob. now rewrite evaluate_thresholds_within.
Qed.

Lemma no_names_no_targets (all_targets : list (string * list string)) :
  Forall (fun item => snd item = []) all_targets ->
  flat_map (fun item =>
              map (fun name => ("//" ++ fst item ++ ":" ++ name)%string)
                  (snd item))
           all_targets
  = [].
Proof.
  induction 1 as [|item rest Hitem _ IH]; [reflexivity|].
  cbn [flat_map]. now rewrite Hitem, IH.
Qed.

(** X8.  Discovery is tested for an empty mapping only.  When
    [find_targets] returns paths that all have an empty list of target names,
    glob mode is off and no configuration exists yet, the conversion does not
    skip the directory: it writes a configuration with an empty target list,
    adds it to the repository, runs [sed] on the [TARGETS] file of every
    discovered path, checks, treats every file of the report and runs the
    lint pass. *)
Theorem paths_without_names_still_convert
        (run : state -> option state) (directory : string) (st : state)
        (first : string * list string) (others : list (string * list string)) :
  let configuration_path := joinpath C directory ".pyre_configuration.local" in
  let configuration :=
    Configuration_init C configuration_path (JObject [("targets", JArray [])]) in
  let targets_files :=
    map (fun item => joinpath C (Path C (fst item)) "TARGETS")
        (first :: others) in
  let checked :=
    extend [Log INFO "Creating local configuration at %s."
                [LStr configuration_path];
            ConfigurationWrite configuration;
            AddPaths [configuration_path];
            Log INFO "Removing typing options from %s targets files"
                [LInt (Z.of_nat (S (List.length others)))];
            SubprocessRun
              (["sed"; "-i";
                "/typing \?=.*\|check_types \?=.*\|check_types_options \?=.*\|typing_options \?=.*/d"]
                 ++ targets_files);
            RemoveNonPyreIgnores directory;
            GetErrors configuration None] st in
  find_targets C (trace st) directory (pyre_only self) = first :: others ->
  Forall (fun item => snd item = []) (first :: others) ->
  Py.truthy (glob st) = false ->
  path_exists C (trace st) configuration_path = false ->
  convert_directory C self run directory st
  = Some
      (lint_pass
         C self configuration
         (extend
            (flat_map
               (fun file =>
                  if exceeds (fixme_threshold self)
                             (Z.of_nat (List.length (snd file)))
                  then [Log INFO
                            "%d errors found in `%s`. Adding file-level ignore."
                            [LInt (Z.of_nat (List.length (snd file)));
                             LStr (fst file)];
                        AddLocalMode (fst file) IGNORE]
                  else [SuppressErrors (snd file)])
               (get_errors C (trace checked) configuration None))
            checked)).
Proof.
  intros configuration_path configuration targets_files checked
         Htargets Hnames Hglob Hfresh.
  assert (Hcheck : check_directory C directory (first :: others) st
                   = (configuration, checked)).
  { rewrite check_directory_unfold. cbv zeta.
    unfold select_targets. rewrite Hglob.
    rewrite explicit_targets. cbn [fst snd app].
    rewrite (no_names_no_targets Hnames).
    rewrite write_configuration_unfold. cbv zeta.
    fold configuration_path. rewrite Hfresh. cbn [fst snd].
    rewrite extend_extend. fold targets_files.
    unfold targets_files at 1. rewrite length_map. reflexivity. }
  unfold convert_directory. rewrite Htargets, Hcheck.
  rewrite evaluate_thresholds_within; [reflexivity|].
  apply Forall_forall. intros file _. now apply exceeds_falsy.
Qed.

End Conversion.

(** ** The loop and the conversion at a threshold of zero *)

Section ZeroThresholdLoop.

Context {Error Configuration : Type}.
Variable C : Collaborators Error Configuration.
Variable self : arguments.

Local Abbreviation state := (state Error Configuration).
Local Abbreviation event := (event Error Configuration).
Local Abbreviation file_events := (@file_events Error Configuration).

Lemma evaluate_thresholds_glob_zero
      (run : state -> option state) (error_threshold : option Z)
      (files : list (string * list Error)) (st : state) :
  evaluate_thresholds run (Some 0%Z) error_threshold files st
  = Next (extend (flat_map (file_events error_threshold) files) st).
Proof.
  apply evaluate_thresholds_within.
  apply Forall_forall. intros file _. reflexivity.
Qed.

Lemma evaluate_thresholds_without_thresholds
      (run : state -> option state) (zero_glob zero_fixme : bool)
      (files : list (string * list Error)) (st : state) :
  evaluate_thresholds run (if zero_glob then Some 0%Z else None)
                      (if zero_fixme then Some 0%Z else None) files st
  = Next (extend (flat_map (fun file => [SuppressErrors (snd file)]) files) st).
Proof.
  rewrite evaluate_thresholds_within.
  - f_equal. f_equal. apply flat_map_ext. intros file.
    unfold file_events. now destruct zero_fixme.
  - apply Forall_forall. intros file _. now destruct zero_glob.
Qed.

(** C9.  A threshold given as [0] acts as one that was not given.  With
    each threshold either absent or [0], the threshold loop suppresses every
    file of the report inline, in report order, puts no file-level ignore and
    never falls back.  With [--glob 0] the loop never falls back whatever the
    fixme threshold, the explicit targets are selected, and a conversion
    with both thresholds [0] skips a directory without targets and otherwise
    checks it with explicit targets, suppresses every file inline and runs
    the lint pass.  A whole run with [--fixme-threshold 0] is the run
    without the option, and a whole run with [--glob 0] completes without a
    revert and is, effect for effect, the run without the option; only the
    stored attribute differs. *)
Theorem zero_threshold_is_no_threshold (fuel : nat) (t0 : list event) :
  (forall file : string * list Error,
      file_events (Some 0%Z) file = [SuppressErrors (snd file)])
  /\ (forall (run : state -> option state) (zero_glob zero_fixme : bool)
             (files : list (string * list Error)) (st : state),
         evaluate_thresholds run (if zero_glob then Some 0%Z else None)
                             (if zero_fixme then Some 0%Z else None) files st
         = Next {| glob := glob st;
                   trace := trace st
                            ++ flat_map (fun file => [SuppressErrors (snd file)])
                                        files |})
  /\ (forall (run : state -> option state) (glob_threshold : option Z)
             (files : list (string * list Error)) (st : state),
         evaluate_thresholds run glob_threshold (Some 0%Z) files st
         = evaluate_thresholds run glob_threshold None files st)
  /\ (forall (run : state -> option state) (error_threshold : option Z)
             (files : list (string * list Error)) (st : state),
         evaluate_thresholds run (Some 0%Z) error_threshold files st
         = Next
             {| glob := glob st;
                trace :=
                  trace st
                    ++ flat_map
                         (fun file =>
                            if exceeds error_threshold
                                       (Z.of_nat (List.length (snd file)))
                            then [Log INFO
                                      "%d errors found in `%s`. Adding file-level ignore."
                                      [LInt (Z.of_nat (List.length (snd file)));
                                       LStr (fst file)];
                                  AddLocalMode (fst file) IGNORE]
                            else [SuppressErrors (snd file)])
                         files |})
  /\ (forall st,
         run C (with_fixme_threshold (Some 0%Z) self) fuel st
         = run C (with_fixme_threshold None self) fuel st)
  /\ (forall directory all_targets,
         select_targets C directory all_targets
                        {| glob := Some 0%Z; trace := t0 |}
         = (flat_map (fun item =>
                        map (fun name =>
                               ("//" ++ fst item ++ ":" ++ name)%string)
                            (snd item))
                     all_targets,
            map (fun item => joinpath C (Path C (fst item)) "TARGETS")
                all_targets))
  /\ (forall (run : state -> option state) (directory : string),
         convert_directory C (with_fixme_threshold (Some 0%Z) self) run
                           directory {| glob := Some 0%Z; trace := t0 |}
         = match find_targets C t0 directory (pyre_only self) with
           | [] =>
               Some {| glob := Some 0%Z;
                       trace :=
                         t0 ++ [Log WARNING
                                    "No configuration created because no targets found."
                                    []] |}
           | first :: others =>
               let checked :=
                 check_directory C directory (first :: others)
                                 {| glob := Some 0%Z; trace := t0 |} in
               Some (lint_pass
                       C self (fst checked)
                       {| glob := Some 0%Z;
                          trace :=
                            trace (snd checked)
                              ++ flat_map
                                   (fun file => [SuppressErrors (snd file)])
                                   (get_errors C (trace (snd checked))
                                               (fst checked) None) |})
           end)
  /\ run C self fuel {| glob := Some 0%Z; trace := t0 |}
     = option_map (set_glob (Some 0%Z))
                  (run C self fuel {| glob := None; trace := t0 |})
  /\ exists t,
      fallbacks t = 0
      /\ run C self (S fuel) {| glob := Some 0%Z; trace := t0 |}
         = Some {| glob := Some 0%Z; trace := t0 ++ t |}.
Proof.
  destruct (run_falsy C self t0) as (t & Hquiet & Hrun).
  split; [reflexivity|].
  split; [intros; apply evaluate_thresholds_without_thresholds|].
  split; [intros; apply evaluate_thresholds_zero|].
  split; [intros; apply evaluate_thresholds_glob_zero|].
  split; [intros st; apply run_zero|].
  split.
  { intros directory all_targets. unfold select_targets. cbn [glob Py.truthy].
    change (negb (0 =? 0)%Z) with false. cbv iota.
    now rewrite explicit_targets. }
  split.
  { intros run directory. unfold convert_directory.
    cbn [with_fixme_threshold pyre_only fixme_threshold trace].
    destruct (find_targets C t0 directory (pyre_only self)) as [|first others];
      [reflexivity|].
    pose proof (check_directory_keeps_glob
                  C directory (first :: others)
                  {| glob := Some 0%Z; trace := t0 |}) as Hglob.
    cbv zeta.
    destruct (check_directory C directory (first :: others)
                              {| glob := Some 0%Z; trace := t0 |})
      as [configuration st1].
    cbn [fst snd glob] in *. rewrite Hglob.
    rewrite (evaluate_thresholds_without_thresholds run true true).
    unfold extend. now rewrite Hglob. }
  split.
  - destruct fuel as [|fuel]; [reflexivity|].
    now rewrite !Hrun.
  - exists t. split; [exact Hquiet|]. now apply Hrun.
Qed.

End ZeroThresholdLoop.

(** ** Changesets and reverts of a whole run *)

Section Changesets.

Context {Error Configuration : Type}.
Variable C : Collaborators Error Configuration.
Variable self : arguments.

Local Abbreviation state := (state Error Configuration).
Local Abbreviation event := (event Error Configuration).
Local Abbreviation file_events := (@file_events Error Configuration).

Lemma submits_app (a b : list event) : submits (a ++ b) = submits a + submits b.
Proof. unfold submits. now rewrite filter_app, length_app. Qed.

Lemma calm_app (a b : list event) : calm a -> calm b -> calm (a ++ b).
Proof. unfold calm. intros Ha Hb. now rewrite forallb_app, Ha, Hb. Qed.

Lemma calm_counts (t : list event) : calm t -> fallbacks t = 0 /\ submits t = 0.
Proof.
  unfold calm, fallbacks, submits.
  induction t as [|e t IH]; [now split|].
  simpl. rewrite !andb_true_iff, !negb_true_iff.
  intros [[Hf Hs] Ht]. rewrite Hf, Hs. now apply IH.
Qed.

Lemma file_events_calm (error_threshold : option Z)
      (files : list (string * list Error)) :
  calm (flat_map (file_events error_threshold) files).
Proof.
  induction files as [|file files IH]; [reflexivity|].
  cbn [flat_map]. apply calm_app; [|exact IH].
  unfold file_events. now destruct (exceeds _ _).
Qed.

Lemma check_directory_calm
      (directory : string) (all_targets : list (string * list string))
      (t0 : list event) (mode : bool) :
  exists configuration t,
    calm t
    /\ forall g, Py.truthy g = mode ->
                 check_directory C directory all_targets
                                 {| glob := g; trace := t0 |}
                 = (configuration, {| glob := g; trace := t0 ++ t |}).
Proof.
  destruct (path_exists C t0 (joinpath C directory ".pyre_configuration.local"))
    eqn:Hexists;
    do 2 eexists; (split; cycle 1);
    try (intros g Hg; rewrite check_directory_unfold; cbv zeta;
         rewrite write_configuration_unfold; cbv zeta;
         unfold select_targets; cbn [glob trace]; rewrite Hg, Hexists;
         cbn [fst snd]; rewrite extend_extend; unfold extend; cbn [glob trace];
         reflexivity);
    reflexivity.
Qed.

Lemma lint_pass_calm (configuration : Configuration) (t0 : list event) :
  exists t,
    calm t
    /\ forall g, lint_pass C self configuration {| glob := g; trace := t0 |}
                 = {| glob := g; trace := t0 ++ t |}.
Proof.
  unfold lint_pass. destruct (lint self).
  - destruct (format C (t0 ++ [Format])) eqn:Hformat;
      eexists; (split; cycle 1);
      try (intros g; unfold emit; cbn [glob trace]; rewrite Hformat;
           rewrite <- ?app_assoc; reflexivity);
      reflexivity.
  - exists []. split; [reflexivity|]. intros g. now rewrite app_nil_r.
Qed.

Lemma convert_directory_calm (directory : string) (t0 : list event) :
  exists t,
    calm t
    /\ forall run g,
      Py.truthy g = false ->
      convert_directory C self run directory {| glob := g; trace := t0 |}
      = Some {| glob := g; trace := t0 ++ t |}.
Proof.
  unfold convert_directory. cbn [trace].
  destruct (find_targets C t0 directory (pyre_only self)) as [|first others].
  - eexists. split; cycle 1.
    + intros run g _. reflexivity.
    + reflexivity.
  - destruct (check_directory_calm directory (first :: others) t0 false)
      as (configuration & t1 & Hcalm1 & Hcheck).
    destruct (lint_pass_calm
                configuration
                ((t0 ++ t1)
                   ++ flat_map (file_events (fixme_threshold self))
                               (get_errors C (t0 ++ t1) configuration None)))
      as (t2 & Hcalm2 & Hlint).
    eexists. split; cycle 1.
    + intros run g Hg. rewrite (Hcheck g Hg). cbn [glob trace].
      rewrite evaluate_thresholds_within.
      * unfold extend. cbn [glob trace]. rewrite Hlint.
        rewrite <- !app_assoc. reflexivity.
      * apply Forall_forall. intros file _. now apply exceeds_falsy.
    + repeat apply calm_app; try assumption. apply file_events_calm.
Qed.

Lemma convert_directories_calm
      (directories converted : list string) (t0 : list event) :
  exists converted' t,
    calm t
    /\ forall run g,
      Py.truthy g = false ->
      convert_directories C self run directories converted
                          {| glob := g; trace := t0 |}
      = Some (converted', {| glob := g; trace := t0 ++ t |}).
Proof.
  revert converted t0.
  induction directories as [|directory rest IH]; intros converted t0.
  - exists converted, []. split; [reflexivity|].
    intros run g _. simpl. now rewrite app_nil_r.
  - simpl. destruct (not_converted converted directory).
    + destruct (convert_directory_calm directory t0) as (t1 & Hcalm1 & Hone).
      destruct (IH (converted ++ [directory]) (t0 ++ t1))
        as (converted' & t2 & Hcalm2 & Hrest).
      exists converted', (t1 ++ t2). split.
      * now apply calm_app.
      * intros run g Hg. rewrite (Hone run g Hg), (Hrest run g Hg).
        now rewrite app_assoc.
    + apply IH.
Qed.

Lemma run_body_submits_once (t0 : list event) :
  exists t,
    fallbacks t = 0 /\ submits t = 1
    /\ forall run g,
      Py.truthy g = false ->
      run_body C self run {| glob := g; trace := t0 |}
      = Some {| glob := g; trace := t0 ++ t |}.
Proof.
  unfold run_body, emit. cbn [trace glob].
  set (root := match subdirectory self with
               | Some s => if negb (String.eqb s "") then Path C s else cwd C t0
               | None => cwd C t0
               end).
  set (start := Log INFO _ [LStr root]).
  destruct (convert_directories_calm
              (_gather_directories C (t0 ++ [start]) root) [] (t0 ++ [start]))
    as (converted' & t1 & Hcalm & Hloop).
  destruct (calm_counts Hcalm) as [Hquiet Hnone].
  eexists. split; [|split]; cycle 2.
  - intros run g Hg. rewrite (Hloop run g Hg).
    rewrite (submit_changes_falsy C self root g _ Hg).
    rewrite <- !app_assoc. reflexivity.
  - cbn [app]. change (start :: t1 ++ ?l) with ([start] ++ t1 ++ l).
    rewrite !fallbacks_app, Hquiet. reflexivity.
  - cbn [app]. change (start :: t1 ++ ?l) with ([start] ++ t1 ++ l).
    rewrite !submits_app, Hnone. reflexivity.
Qed.

Lemma run_resubmits (fuel : nat) : resubmits (run C self (S fuel)).
Proof.
  intros t0. destruct (run_body_submits_once t0) as (t & Hquiet & Hone & Hrun).
  exists t. split; [exact Hquiet|]. split; [exact Hone|].
  simpl. now apply Hrun.
Qed.

Lemma outcome_trans (j k : nat) (st st1 st2 : state) :
  outcome j st st1 -> outcome k st1 st2 -> outcome (j + k) st st2.
Proof.
  unfold outcome.
  intros [(Hg1 & Hf1 & Hs1) | (Hm1 & Hg1 & Hf1 & Hs1)]
         [(Hg2 & Hf2 & Hs2) | (Hm2 & Hg2 & Hf2 & Hs2)].
  - left. repeat split; [congruence|congruence|lia].
  - right. rewrite Hg1 in Hm2. repeat split; [exact Hm2|exact Hg2|lia|lia].
  - right. repeat split; [exact Hm1|congruence|lia|lia].
  - rewrite Hg1 in Hm2. discriminate.
Qed.

Lemma convert_directory_outcome
      (rerun : state -> option state) (directory : string) (st : state) :
  resubmits rerun ->
  exists st',
    convert_directory C self rerun directory st = Some st' /\ outcome 0 st st'.
Proof.
  intros Hrerun. destruct st as [g t0].
  destruct (Py.truthy g) eqn:Hmode; cycle 1.
  { destruct (convert_directory_calm directory t0) as (t & Hcalm & Hconvert).
    destruct (calm_counts Hcalm) as [Hquiet Hnone].
    eexists. split; [apply (Hconvert rerun g Hmode)|].
    left. cbn [glob trace]. rewrite fallbacks_app, submits_app.
    repeat split; lia. }
  unfold convert_directory. cbn [trace].
  destruct (find_targets C t0 directory (pyre_only self)) as [|first others].
  { eexists. split; [reflexivity|]. left. unfold emit. cbn [glob trace].
    rewrite fallbacks_app, submits_app. cbn. repeat split; lia. }
  destruct (check_directory_calm directory (first :: others) t0 true)
    as (configuration & t1 & Hcalm1 & Hcheck).
  destruct (calm_counts Hcalm1) as [Hquiet1 Hnone1].
  destruct (calm_counts (file_events_calm
                           (fixme_threshold self)
                           (get_errors C (t0 ++ t1) configuration None)))
    as [Hquiet_all Hnone_all].
  rewrite (Hcheck g Hmode). cbn [glob trace].
  destruct (evaluate_thresholds_cases
              rerun g (fixme_threshold self)
              (get_errors C (t0 ++ t1) configuration None)
              {| glob := g; trace := t0 ++ t1 |})
    as [Hnext | (pre & Hreturn)].
  - rewrite Hnext. unfold extend. cbn [glob trace].
    destruct (lint_pass_calm
                configuration
                ((t0 ++ t1)
                   ++ flat_map (file_events (fixme_threshold self))
                               (get_errors C (t0 ++ t1) configuration None)))
      as (t2 & Hcalm2 & Hlint).
    destruct (calm_counts Hcalm2) as [Hquiet2 Hnone2].
    rewrite Hlint. eexists. split; [reflexivity|].
    left. cbn [glob trace]. rewrite !fallbacks_app, !submits_app.
    repeat split; lia.
  - rewrite Hreturn. cbn [trace].
    destruct (calm_counts (file_events_calm (fixme_threshold self) pre))
      as [Hquiet_pre Hnone_pre].
    destruct (Hrerun ((t0 ++ t1)
                        ++ flat_map (file_events (fixme_threshold self)) pre
                        ++ [Log INFO
                                "Exceeding error threshold of %d; falling back to listing individual targets."
                                [LInt (match g with
                                       | Some n => n
                                       | None => 0%Z
                                       end)];
                            RevertAll true]))
      as (t2 & Hquiet2 & Hone2 & Hrun).
    rewrite Hrun. eexists. split; [reflexivity|].
    right. cbn [glob trace]. rewrite !fallbacks_app, !submits_app.
    rewrite Hquiet1, Hnone1, Hquiet_pre, Hnone_pre, Hquiet2, Hone2. cbn.
    repeat split; first [exact Hmode | reflexivity | lia].
Qed.

Lemma convert_directories_outcome
      (rerun : state -> option state) (directories converted : list string)
      (st : state) :
  resubmits rerun ->
  exists converted' st',
    convert_directories C self rerun directories converted st
    = Some (converted', st')
    /\ outcome 0 st st'.
Proof.
  intros Hrerun. revert converted st.
  induction directories as [|directory rest IH]; intros converted st.
  - exists converted, st. split; [reflexivity|]. left. repeat split; lia.
  - simpl. destruct (not_converted converted directory); [|apply IH].
    destruct (convert_directory_outcome directory st Hrerun)
      as (st1 & Hone & Hstep1).
    rewrite Hone.
    destruct (IH (converted ++ [directory]) st1)
      as (converted' & st2 & Hrest & Hstep2).
    exists converted', st2. split; [exact Hrest|].
    apply (outcome_trans Hstep1 Hstep2).
Qed.

Lemma run_body_outcome (rerun : state -> option state) (st : state) :
  resubmits rerun ->
  exists st', run_body C self rerun st = Some st' /\ outcome 1 st st'.
Proof.
  intros Hrerun. unfold run_body.
  set (root := match subdirectory self with
               | Some s =>
                   if negb (String.eqb s "") then Path C s else cwd C (trace st)
               | None => cwd C (trace st)
               end).
  set (st0 := emit (Log INFO _ [LStr root]) st).
  destruct (convert_directories_outcome
              (_gather_directories C (trace st0) root) [] st0 Hrerun)
    as (converted' & st1 & Hloop & Hstep).
  rewrite Hloop. eexists. split; [reflexivity|].
  assert (Hstart : outcome 0 st st0).
  { left. unfold st0, emit. cbn [glob trace].
    rewrite fallbacks_app, submits_app. cbn. repeat split; lia. }
  assert (Hend : outcome 1 st1 (submit_changes C self root st1)).
  { left. unfold submit_changes, emit. cbn [glob trace].
    rewrite fallbacks_app, submits_app. cbn. repeat split; lia. }
  apply (outcome_trans (outcome_trans Hstart Hstep) Hend).
Qed.

(** X9.  A completed invocation of [run] has one of two shapes.  Either the
    glob fallback did not fire: [glob] is as it was, nothing was reverted and
    exactly one changeset was submitted.  Or it fired, once: [glob] was
    truthy and is now [None], the working copy was reverted once, and two
    changesets were submitted, one by the re-entered run and one by the run
    that re-entered it. *)
Theorem one_changeset_per_run_entered (st : state) :
  exists final,
    run C self 2 st = Some final
    /\ ((glob final = glob st
         /\ fallbacks (trace final) = fallbacks (trace st)
         /\ submits (trace final) = submits (trace st) + 1)
        \/ (Py.truthy (glob st) = true
            /\ glob final = None
            /\ fallbacks (trace final) = S (fallbacks (trace st))
            /\ submits (trace final) = submits (trace st) + 2)).
Proof.
  destruct (run_body_outcome st (run_resubmits 0)) as (final & Hrun & Hout).
  exists final. split; [exact Hrun|].
  destruct Hout as [(Hg & Hf & Hs) | (Hm & Hg & Hf & Hs)].
  - left. repeat split; assumption.
  - right. repeat split; try assumption. lia.
Qed.

End Changesets.

(** ** Further properties of the coverage resolver *)

Section Coverage.

Context {Error Configuration : Type}.
Variable C : Collaborators Error Configuration.

Local Abbreviation event := (event Error Configuration).

Lemma prefix_empty (s : string) : String.prefix "" s = true.
Proof. now destruct s. Qed.

Lemma prefix_same_head (c : Ascii.ascii) (a b : string) :
  String.prefix (String c a) (String c b) = String.prefix a b.
Proof. cbn [String.prefix]. now destruct (Ascii.ascii_dec c c). Qed.

Lemma join_of_components_is_prefix (s : string) (k : nat) :
  String.prefix (Py.join "/" (firstn k (Py.split "/" s))) s = true.
Proof.
  unfold Py.join. revert k. induction s as [|c s IH]; intros k.
  - destruct k as [|[|k]]; reflexivity.
  - cbn [Py.split]. destruct (Ascii.eqb_spec c "/") as [-> | Hc].
    + destruct k as [|k]; [reflexivity|]. cbn [firstn String.concat].
      specialize (IH k).
      destruct (firstn k (Py.split "/" s)) as [|x xs]; [reflexivity|].
      cbn [String.append]. now rewrite prefix_same_head.
    + destruct (Py.split "/" s) as [|w ws].
      * destruct k as [|[|k]]; cbn [firstn String.concat];
          rewrite ?prefix_same_head; apply prefix_empty.
      * destruct k as [|k]; [reflexivity|]. specialize (IH (S k)).
        cbn [firstn String.concat] in *.
        destruct (firstn k ws) as [|x xs];
          cbn [String.append]; now rewrite prefix_same_head.
Qed.

Lemma walk_parents_nth
      (walk : list (list string)) (depth k : nat) (parent : string) :
  nth_error (walk_parents walk depth) k = Some parent ->
  exists directory,
    In directory walk
    /\ depth + k < List.length directory
    /\ parent = Py.join "/" (firstn (depth + k) directory).
Proof.
  revert depth k.
  induction walk as [|directory rest IH]; intros depth k; cbn [walk_parents].
  - now destruct k.
  - destruct (Nat.leb_spec (List.length directory) depth) as [Hle|Hlt].
    + intros Hnth. destruct (IH _ _ Hnth) as (d & Hin & Hdeep & Hjoin).
      exists d. split; [now right|]. now split.
    + destruct k as [|k]; cbn [nth_error].
      * intros [= <-]. exists directory. rewrite Nat.add_0_r.
        split; [now left|]. now split.
      * intros Hnth. destruct (IH _ _ Hnth) as (d & Hin & Hdeep & Hjoin).
        exists d. rewrite <- Nat.add_succ_comm.
        split; [now right|]. now split.
Qed.

Lemma walk_parents_length (walk : list (list string)) (depth : nat) :
  List.length (walk_parents walk depth) <= List.length walk.
Proof.
  revert depth. induction walk as [|directory rest IH]; intros depth;
    cbn [walk_parents]; [reflexivity|].
  destruct (Nat.leb (List.length directory) depth); cbn [List.length].
  - specialize (IH depth). lia.
  - specialize (IH (S depth)). lia.
Qed.

Lemma fill_lists_parents
      (t : list event) (known : list string) (walk : list (list string))
      (depth : nat) (missing : list string) :
  snd (fold_left (fill_step C t known) walk (depth, missing))
  = missing
      ++ filter (uncovered known)
                (flat_map (fun parent => find_directories C t (Path C parent))
                          (walk_parents walk depth)).
Proof.
  revert depth missing.
  induction walk as [|directory rest IH]; intros depth missing.
  - simpl. now rewrite app_nil_r.
  - cbn [fold_left fill_step walk_parents].
    destruct (Nat.leb (List.length directory) depth); [apply IH|].
    rewrite IH, add_missing_filter. cbn [flat_map].
    now rewrite filter_app, app_assoc.
Qed.

Lemma sorted_directories_in (known : list string) (directory : list string) :
  In directory (sorted_directories known) ->
  exists d, In d known /\ directory = Py.split "/" d.
Proof.
  intros Hin. unfold sorted_directories in Hin.
  apply (Permutation_in _ (Permutation_sym (sorted_permutation _))) in Hin.
  apply in_map_iff in Hin. destruct Hin as (d & <- & Hd). now exists d.
Qed.

(** X10.  Gap filling lists at most one directory per known configuration
    directory, and the missing directories are the uncovered entries of
    those listings, in listing order. *)
Theorem missing_come_from_listed_parents (t : list event) (known : list string) :
  missing_directories C t known
  = filter (uncovered known)
           (flat_map (fun parent => find_directories C t (Path C parent))
                     (listed_parents known))
  /\ List.length (listed_parents known) <= List.length known.
Proof.
  split.
  - unfold missing_directories, listed_parents. now rewrite fill_lists_parents.
  - unfold listed_parents. etransitivity; [apply walk_parents_length|].
    unfold sorted_directories.
    rewrite <- (Permutation_length (sorted_permutation _)).
    now rewrite length_map.
Qed.

Lemma split_absolute (d : string) :
  String.prefix "/" d = true ->
  exists components, Py.split "/" d = "" :: components.
Proof.
  destruct d as [|c d]; [discriminate|].
  cbn [String.prefix]. destruct (Ascii.ascii_dec "/" c) as [<- |]; [|discriminate].
  intros _. now exists (Py.split "/" d).
Qed.

(** X11.  The walk lists [Path(p)] for the strings [p] of [listed_parents].
    The [k]-th of them (counting from 0) is the join of the first [k + 1]
    components of a known configuration directory that has more components
    than that, and is a string prefix of that directory's path string.  For a
    known directory that starts with a slash the first component is empty:
    the first listing is then of [Path("")], not of an ancestor. *)
Theorem listed_parents_are_component_prefixes
        (t : list event) (known : list string) (k : nat) (parent : string) :
  nth_error (listed_parents known) k = Some parent ->
  missing_directories C t known
  = filter (uncovered known)
           (flat_map (fun p => find_directories C t (Path C p))
                     (listed_parents known))
  /\ exists d,
      In d known
      /\ S k < List.length (Py.split "/" d)
      /\ parent = Py.join "/" (firstn (S k) (Py.split "/" d))
      /\ String.prefix parent d = true
      /\ (k = 0 -> String.prefix "/" d = true -> parent = "").
Proof.
  intros Hnth. split.
  { unfold missing_directories, listed_parents. now rewrite fill_lists_parents. }
  unfold listed_parents in Hnth.
  destruct (walk_parents_nth _ _ _ Hnth) as (directory & Hin & Hdeep & Hjoin).
  destruct (sorted_directories_in _ _ Hin) as (d & Hd & ->).
  exists d. cbn [Nat.add] in *.
  split; [exact Hd|]. split; [exact Hdeep|]. split; [exact Hjoin|]. split.
  - rewrite Hjoin. apply join_of_components_is_prefix.
  - intros -> Habsolute. rewrite Hjoin.
    destruct (split_absolute d Habsolute) as (components & ->). reflexivity.
Qed.

(** X12.  When no known configuration directory has more than one path
    component, nothing is listed and nothing is missing: directories beside
    top-level configurations are never added to the coverage set. *)
Theorem single_component_directories_fill_nothing
        (t : list event) (known : list string) :
  Forall (fun d => List.length (Py.split "/" d) <= 1) known ->
  listed_parents known = [] /\ missing_directories C t known = [].
Proof.
  intros Hshallow.
  assert (Hnone : listed_parents known = []).
  { destruct (listed_parents known) as [|parent others] eqn:Hlisted;
      [reflexivity|].
    assert (Hnth : nth_error (listed_parents known) 0 = Some parent)
      by now rewrite Hlisted.
    unfold listed_parents in Hnth.
    destruct (walk_parents_nth _ _ _ Hnth) as (directory & Hin & Hdeep & _).
    destruct (sorted_directories_in _ _ Hin) as (d & Hd & ->).
    rewrite Forall_forall in Hshallow. specialize (Hshallow d Hd).
    cbn [Nat.add] in Hdeep. lia. }
  split; [exact Hnone|].
  unfold missing_directories. rewrite fill_lists_parents.
  fold (listed_parents known). now rewrite Hnone.
Qed.

Lemma replace_configuration_name (d : string) :
  hidden d = false ->
  Py.replace (d ++ "/.pyre_configuration.local")
             "/.pyre_configuration.local" ""
  = d.
Proof.
  unfold Py.replace. induction d as [|c d IH]; intros Hplain; [reflexivity|].
  cbn [String.append Py.replace_from].
  assert (Hmiss : String.prefix "/.pyre_configuration.local"
                                (String c (d ++ "/.pyre_configuration.local"))
                  = false).
  { cbn [String.prefix]. destruct (Ascii.ascii_dec "/" c) as [<- |]; [|reflexivity].
    destruct d as [|c' d]; [reflexivity|].
    cbn [String.append String.prefix].
    destruct (Ascii.ascii_dec "." c') as [<- |]; [|reflexivity].
    discriminate Hplain. }
  rewrite Hmiss. f_equal. apply IH.
  destruct d as [|c' d]; [reflexivity|].
  cbn [hidden] in Hplain. now apply orb_false_iff in Hplain.
Qed.

(** X13.  The file search and the resolver round-trip: when the search
    reports the file [d/.pyre_configuration.local] for each directory [d] of
    a list, none of which holds a slash followed by a dot,
    the known configuration directories are that list, in that order. *)
Theorem known_directories_of_found_files
        (t : list event) (subdirectory : string) (directories : list string) :
  Forall (fun d => hidden d = false) directories ->
  find_files C t subdirectory ".pyre_configuration.local"
  = map (fun d => (d ++ "/.pyre_configuration.local")%string) directories ->
  known_directories C t subdirectory = directories.
Proof.
  intros Hplain Hfound. unfold known_directories. rewrite Hfound, map_map.
  clear Hfound.
  induction Hplain as [|d directories Hd _ IH]; [reflexivity|].
  cbn [map]. now rewrite (replace_configuration_name d Hd), IH.
Qed.

End Coverage.

(** ** Scenarios on scripted trees *)

Section Scenarios.

Local Abbreviation state := (state Fake.Error Fake.Configuration).
Local Abbreviation event := (event Fake.Error Fake.Configuration).
Local Abbreviation two := (Fake.world Fake.two_projects).

(** Python built-ins on sample inputs. *)
Example split_abs : Py.split "/" "/a/b" = [""; "a"; "b"].
Proof. reflexivity. Qed.

Example split_empty : Py.split "/" "" = [""].
Proof. reflexivity. Qed.

Example replace_conf :
Py.replace "a/b/.pyre_configuration.local" "/.pyre_configuration.local" "" = "a/b".
Proof. reflexivity. Qed.

Example str_int_neg : Py.str_int (-12) = "-12" /\ Py.str_int 0 = "0".
Proof. split; reflexivity. Qed.

(** The scenario of the specification: one configuration at the root with
    the explicit targets, legacy fields stripped from both build files,
    nothing to suppress, one changeset. *)
Example fresh_root_scenario :
  run (Fake.world Fake.fresh_root) Fake.options 1 (Fake.start None)
  = Some
      {| glob := None;
         trace :=
           [Log INFO "Converting typecheck targets to pyre configurations in `%s`"
                [LStr "src"];
            Log INFO "Creating local configuration at %s."
                [LStr "src/.pyre_configuration.local"];
            ConfigurationWrite
              {| Fake.path := "src/.pyre_configuration.local";
                 Fake.targets := ["//a:x"; "//b/c:y"] |};
            AddPaths ["src/.pyre_configuration.local"];
            Log INFO "Removing typing options from %s targets files" [LInt 2];
            SubprocessRun
              ["sed"; "-i";
               "/typing \?=.*\|check_types \?=.*\|check_types_options \?=.*\|typing_options \?=.*/d";
               "a/TARGETS"; "b/c/TARGETS"];
            RemoveNonPyreIgnores "src";
            GetErrors {| Fake.path := "src/.pyre_configuration.local";
                         Fake.targets := ["//a:x"; "//b/c:y"] |} None;
            SubmitChanges
              true false
              "Convert type check targets in src to use configuration"
              "Migrating buck integration to use configurations." false] |}.
Proof. reflexivity. Qed.

(** Merging [//a:x; //a:y] into a configuration that lists [//a:x]. *)
Example merge_keeps_order_and_drops_duplicates :
  Fake.targets
    (Fake.deduplicate
       (Fake.merge {| Fake.path := "a/.pyre_configuration.local";
                      Fake.targets := ["//a:x"] |}
                   ["//a:x"; "//a:y"]))
  = ["//a:x"; "//a:y"].
Proof. reflexivity. Qed.

(** The coveredness test is on strings: a configuration in [foo2/bar] makes
    [foo] count as covered. *)
Example prefix_test_ignores_components :
  uncovered ["foo2/bar"] "foo" = false /\ uncovered ["foo2/bar"] "foo3" = true.
Proof. split; reflexivity. Qed.

(** C1, counterexample.  In [two_projects] with [--glob 1] the conversion of
    [src/a] falls back and re-enters [run]; when that run has completed and
    submitted, the first run goes on with [src/b], converts it once more and
    submits a second changeset.  And with [--glob 0] a file with one error,
    more than the threshold, causes no revert at all. *)
Lemma fallback_does_not_end_the_first_run :
  let st1 : state :=
    extend [Log INFO "Converting typecheck targets to pyre configurations in `%s`"
                [LStr "src"]] (Fake.start (Some 1%Z)) in
  let checked := check_directory two "src/a" [("src/a", ["x"])] st1 in
  let fallen : state :=
    {| glob := None;
       trace := trace (snd checked)
                ++ [Log INFO
                        "Exceeding error threshold of %d; falling back to listing individual targets."
                        [LInt 1];
                    RevertAll true] |} in
  (convert_directory two Fake.options (run two Fake.options 1) "src/a" st1
   = run two Fake.options 1 fallen
   /\ run two Fake.options 1 fallen <> None
   /\ run two Fake.options 2 (Fake.start (Some 1%Z))
      = option_map
          (extend
             [Log WARNING
                  ("Pyre project already exists at %s." ++ LF ++
                   "                Amending targets to existing configuration."
                  )%string
                  [LStr "src/b/.pyre_configuration.local"];
              ConfigurationWrite
                {| Fake.path := "src/b/.pyre_configuration.local";
                   Fake.targets := ["//src/b:y"] |};
              Log INFO "Removing typing options from %s targets files" [LInt 1];
              SubprocessRun
                ["sed"; "-i";
                 "/typing \?=.*\|check_types \?=.*\|check_types_options \?=.*\|typing_options \?=.*/d";
                 "src/b/TARGETS"];
              RemoveNonPyreIgnores "src/b";
              GetErrors {| Fake.path := "src/b/.pyre_configuration.local";
                           Fake.targets := ["//src/b:y"] |} None;
              SubmitChanges
                true false
                "Convert type check targets in src to use configuration"
                "Migrating buck integration to use configurations." false])
          (run two Fake.options 1 fallen))
  /\ run (Fake.world Fake.noisy_project) Fake.options 2 (Fake.start (Some 0%Z))
     = Some
         {| glob := Some 0%Z;
            trace :=
              [Log INFO
                   "Converting typecheck targets to pyre configurations in `%s`"
                   [LStr "src"];
               Log WARNING
                   ("Pyre project already exists at %s." ++ LF ++
                    "                Amending targets to existing configuration."
                   )%string
                   [LStr "src/a/.pyre_configuration.local"];
               ConfigurationWrite
                 {| Fake.path := "src/a/.pyre_configuration.local";
                    Fake.targets := ["//src/a:x"] |};
               Log INFO "Removing typing options from %s targets files" [LInt 1];
               SubprocessRun
                 ["sed"; "-i";
                  "/typing \?=.*\|check_types \?=.*\|check_types_options \?=.*\|typing_options \?=.*/d";
                  "src/a/TARGETS"];
               RemoveNonPyreIgnores "src/a";
               GetErrors {| Fake.path := "src/a/.pyre_configuration.local";
                            Fake.targets := ["//src/a:x"] |} None;
               SuppressErrors [7];
               SubmitChanges
                 true false
                 "Convert type check targets in src to use configuration"
                 "Migrating buck integration to use configurations." false] |}.
Proof.
  cbv zeta. repeat split; try (vm_compute; reflexivity).
  vm_compute. discriminate.
Qed.

(** C1, witness: the fallback of [src/a] in [two_projects] under [--glob 1]. *)
Lemma glob_fallback_reverts_and_restarts_witness :
  let st : state := Fake.start (Some 1%Z) in
  let checked := check_directory two "src/a" [("src/a", ["x"])] st in
  let fallen : state :=
    {| glob := None;
       trace := trace (snd checked)
                ++ [Log INFO
                        "Exceeding error threshold of %d; falling back to listing individual targets."
                        [LInt 1];
                    RevertAll true] |} in
  convert_directory two Fake.options (run two Fake.options 1) "src/a" st
  = run two Fake.options 1 fallen
  /\ forall n, exists final,
      run two Fake.options (S n) fallen = Some final
      /\ glob final = None
      /\ fallbacks (trace final) = fallbacks (trace fallen).
Proof.
  intros st checked fallen.
  apply (@glob_fallback_reverts_and_restarts
           _ _ two Fake.options 1 "src/a" st 1%Z ("src/a", ["x"]) []
           [] "src/a/f.py" [7; 8] []).
  - reflexivity.
  - discriminate.
  - reflexivity.
  - reflexivity.
  - constructor.
  - simpl. lia.
Defined.

(** C6, counterexample.  In [amended_project] the configuration of [src/a]
    already lists [//old:t]; converted with [--glob 5], the configuration
    that is written lists that target and the wildcard, not the wildcard
    alone. *)
Lemma written_targets_include_existing_ones :
  convert_directory (Fake.world Fake.amended_project) Fake.options
                    (fun _ => None) "src/a" (Fake.start (Some 5%Z))
  = Some
      {| glob := Some 5%Z;
         trace :=
           [Log WARNING
                ("Pyre project already exists at %s." ++ LF ++
                 "                Amending targets to existing configuration."
                )%string
                [LStr "src/a/.pyre_configuration.local"];
            ConfigurationWrite
              {| Fake.path := "src/a/.pyre_configuration.local";
                 Fake.targets := ["//old:t"; "//src/a/..."] |};
            Log INFO "Removing typing options from %s targets files" [LInt 1];
            SubprocessRun
              ["sed"; "-i";
               "/typing \?=.*\|check_types \?=.*\|check_types_options \?=.*\|typing_options \?=.*/d";
               "src/a/TARGETS"];
            RemoveNonPyreIgnores "src/a";
            GetErrors {| Fake.path := "src/a/.pyre_configuration.local";
                         Fake.targets := ["//old:t"; "//src/a/..."] |} None] |}.
Proof. vm_compute. reflexivity. Qed.

(** C6, witness: [src/b] of [two_projects] under [--glob 1]. *)
Lemma mode_selects_targets_and_build_files_witness :
  find_targets two [] "src/b" false = [("src/b", ["y"])]
  /\ select_targets two "src/b" [("src/b", ["y"])] (Fake.start (Some 1%Z))
     = (["//src/b/..."], ["src/b/TARGETS"])
  /\ fst (check_directory two "src/b" [("src/b", ["y"])] (Fake.start (Some 1%Z)))
     = {| Fake.path := "src/b/.pyre_configuration.local";
          Fake.targets := ["//src/b/..."] |}.
Proof.
  pose proof (@mode_selects_targets_and_build_files
                _ _ two Fake.options (fun _ => None) "src/b"
                (Fake.start (Some 1%Z)) ("src/b", ["y"]) [] eq_refl)
    as (Hselect & Hcheck & _).
  refine (conj eq_refl (conj Hselect _)).
  rewrite Hcheck. reflexivity.
Defined.

(** C8, witness: [src/c] has no targets in [two_projects]. *)
Lemma no_targets_is_a_skip_witness :
  find_targets two [] "src/c" false = []
  /\ convert_directory two Fake.options (fun _ => None) "src/c"
                       (Fake.start (Some 1%Z))
     = Some {| glob := Some 1%Z;
               trace := [Log WARNING
                             "No configuration created because no targets found."
                             []] |}.
Proof.
  split; [reflexivity|].
  apply (@no_targets_is_a_skip _ _ two Fake.options (fun _ => None) "src/c"
                               (Fake.start (Some 1%Z))).
  reflexivity.
Defined.

(** C10, witness: [src/c] has no targets; it ends in [converted], and
    [src/c/d] after it is passed over. *)
Lemma skipped_directory_counts_as_converted_witness :
  convert_directories two Fake.options (run two Fake.options 1)
                      ["src/c"; "src/c/d"; "src/e"] [] (Fake.start None)
  = Some (["src/c"; "src/e"], Fake.skipped_twice)
  /\ In "src/c" ["src/c"; "src/e"].
Proof.
  assert (Hcomputed :
            convert_directories two Fake.options (run two Fake.options 1)
                                ["src/c"; "src/c/d"; "src/e"] []
                                (Fake.start None)
            = Some (["src/c"; "src/e"], Fake.skipped_twice))
    by (vm_compute; reflexivity).
  refine (conj Hcomputed _).
  destruct (@skipped_directory_counts_as_converted
              _ _ two Fake.options (run two Fake.options 1) 0 "src/c"
              ["src/c/d"; "src/e"] [] (Fake.start None) eq_refl eq_refl)
    as (_ & converted' & final & tail & Hloop & _ & _ & Hin & _).
  rewrite Hcomputed in Hloop. injection Hloop as <- _. exact Hin.
Defined.

(** C3, counterexample: with [--fixme-threshold 0] a file with one error,
    threshold + 1, is suppressed inline and gets no file-level ignore. *)
Lemma zero_fixme_threshold_suppresses_inline :
  evaluate_thresholds (fun _ => None) None (Some 0%Z) [("src/a/f.py", [7])]
                      (Fake.start None)
  = Next {| glob := None; trace := [SuppressErrors [7]] |}
  /\ evaluate_thresholds (fun _ => None) None (Some 0%Z) [("src/a/f.py", [7])]
                         (Fake.start None)
     <> Next {| glob := None;
                trace := [Log INFO
                              "%d errors found in `%s`. Adding file-level ignore."
                              [LInt 1; LStr "src/a/f.py"];
                          AddLocalMode "src/a/f.py" IGNORE] |}.
Proof. split; [reflexivity|discriminate]. Qed.

(** C3, witness: thresholds [--fixme-threshold 1] and [--glob 2], and the
    negative thresholds [-1]. *)
Lemma thresholds_are_strict_witness :
  let st : state := Fake.start (Some 2%Z) in
  let run : state -> option state := fun _ => None in
  evaluate_thresholds run (Some 2%Z) (Some 1%Z) [("f.py", [7])] st
  = Next {| glob := Some 2%Z; trace := [SuppressErrors [7]] |}
  /\ evaluate_thresholds run (Some 2%Z) (Some 1%Z) [("f.py", [7; 8])] st
     = Next {| glob := Some 2%Z;
               trace := [Log INFO
                             "%d errors found in `%s`. Adding file-level ignore."
                             [LInt 2; LStr "f.py"];
                         AddLocalMode "f.py" IGNORE] |}
  /\ evaluate_thresholds run (Some 2%Z) None [("f.py", [7; 8])] st
     = Next {| glob := Some 2%Z; trace := [SuppressErrors [7; 8]] |}
  /\ evaluate_thresholds run (Some 2%Z) (Some 1%Z) [("f.py", [7; 8; 9])] st
     = Return None
  /\ evaluate_thresholds run None (Some (-1)%Z) [("f.py", [])] st
     = Next {| glob := Some 2%Z;
               trace := [Log INFO
                             "%d errors found in `%s`. Adding file-level ignore."
                             [LInt 0; LStr "f.py"];
                         AddLocalMode "f.py" IGNORE] |}
  /\ evaluate_thresholds run (Some (-1)%Z) None [("f.py", [])] st
     = Return None.
Proof.
  intros st run.
  pose proof (@thresholds_are_strict
                _ _ run (Some 2%Z) (Some 1%Z) 1%Z 2%Z "f.py" [] st)
    as (Hinline & Hignored & _ & Hfell).
  pose proof (@thresholds_are_strict
                _ _ run (Some 2%Z) None 1%Z 2%Z "f.py" [] st)
    as (_ & _ & Hkept & _).
  pose proof (@thresholds_are_strict
                _ _ run None None (-1)%Z (-1)%Z "f.py" [] st)
    as (_ & Hnegative_fixme & _ & Hnegative_glob).
  refine (conj _ (conj _ (conj _ (conj _ (conj _ _))))).
  - apply (Hinline [7]); [simpl; lia | reflexivity].
  - apply (Hignored [7; 8]); [discriminate | simpl; lia | reflexivity].
  - apply (Hkept [7; 8]). simpl. lia.
  - apply (Hfell [7; 8; 9]); [discriminate | simpl; lia].
  - apply (Hnegative_fixme []); [discriminate | simpl; lia | reflexivity].
  - apply (Hnegative_glob []); [discriminate | simpl; lia].
Defined.

(** C4, counterexample: the file search reports [src/a/b] before [src/a],
    and so does the resolver; the three-component directory precedes the
    two-component one. *)
Lemma coverage_set_is_not_sorted :
  _gather_directories (Fake.world Fake.nested_projects) [] "src"
  = ["src/a/b"; "src/a"; "src/a/c"]
  /\ ~ Sorted (fun a b => Py.key_le (Py.split "/" a) (Py.split "/" b))
              (_gather_directories (Fake.world Fake.nested_projects) [] "src").
Proof.
  split; [reflexivity|].
  intros Hsorted.
  change (_gather_directories (Fake.world Fake.nested_projects) [] "src")
    with ["src/a/b"; "src/a"; "src/a/c"] in Hsorted.
  inversion Hsorted as [|? ? _ Hhead]. inversion Hhead as [|? ? Hle].
  discriminate Hle.
Qed.

End Scenarios.

(** ** Sample inputs for the further properties *)

Section Samples.

Local Abbreviation state := (state Fake.Error Fake.Configuration).
Local Abbreviation two := (Fake.world Fake.two_projects).

(** X1, witness: [src/c], [src/c/d] and [src/e] of [two_projects]. *)
Lemma converted_is_the_greedy_selection_witness :
  convert_directories two Fake.options (fun _ => None)
                      ["src/c"; "src/c/d"; "src/e"] [] (Fake.start None)
  = Some (["src/c"; "src/e"], Fake.skipped_twice)
  /\ ["src/c"; "src/e"] = selected ["src/c"; "src/c/d"; "src/e"] [].
Proof.
  split; [reflexivity|].
  apply (@converted_is_the_greedy_selection
           _ _ two Fake.options (fun _ => None)
           ["src/c"; "src/c/d"; "src/e"] [] (Fake.start None)
           ["src/c"; "src/e"] Fake.skipped_twice).
  reflexivity.
Defined.


(** X3, witness: [src/c/d] is covered by [src/c]. *)
Lemma every_directory_is_covered_witness :
  exists c, In c ["src/c"; "src/e"] /\ Py.startswith "src/c/d" c = true.
Proof.
  apply (@every_directory_is_covered
           _ _ two Fake.options (fun _ => None)
           ["src/c"; "src/c/d"; "src/e"] [] (Fake.start None)
           ["src/c"; "src/e"] Fake.skipped_twice "src/c/d").
  - reflexivity.
  - simpl. tauto.
Defined.

(** X4, witness: [src/a2] after [src/a]. *)
Lemma longer_name_is_skipped_witness :
  convert_directories two Fake.options (fun _ => None) ["src/a2"; "src/b"]
                      ["src/a"] (Fake.start None)
  = convert_directories two Fake.options (fun _ => None) ["src/b"]
                        ["src/a"] (Fake.start None).
Proof.
  apply (@longer_name_is_skipped
           _ _ two Fake.options (fun _ => None) "src/a" "2" ["src/b"]
           ["src/a"] (Fake.start None)).
  simpl. tauto.
Defined.

(** X5, witness: [--glob -1] and a file without errors. *)
Lemma negative_glob_falls_back_at_once_witness :
  evaluate_thresholds (fun _ => None) (Some (-1)%Z) None
                      [("src/a/f.py", @nil Fake.Error)]
                      (Fake.start (Some (-1)%Z))
  = Return None.
Proof.
  apply (@negative_glob_falls_back_at_once
           _ _ (fun _ => None) (-1)%Z None "src/a/f.py" [] []
           (Fake.start (Some (-1)%Z))).
  lia.
Defined.

(** X6, witness: [--fixme-threshold -1] and a file without errors. *)
Lemma negative_fixme_threshold_ignores_every_file_witness :
  evaluate_thresholds (fun _ => None) None (Some (-1)%Z)
                      [("src/a/f.py", @nil Fake.Error)] (Fake.start None)
  = Next {| glob := None;
            trace := [Log INFO
                          "%d errors found in `%s`. Adding file-level ignore."
                          [LInt 0; LStr "src/a/f.py"];
                      AddLocalMode "src/a/f.py" IGNORE] |}.
Proof.
  apply (@negative_fixme_threshold_ignores_every_file
           _ _ (fun _ => None) None (-1)%Z [("src/a/f.py", [])]
           (Fake.start None)); [lia|reflexivity].
Defined.

(** X7, witness: [src/a] of [noisy_project] with glob mode off. *)
Lemma conversion_without_fallback_witness :
  let noisy := Fake.world Fake.noisy_project in
  let checked :=
    check_directory noisy "src/a" [("src/a", ["x"])] (Fake.start None) in
  convert_directory noisy Fake.options (fun _ => None) "src/a" (Fake.start None)
  = Some (lint_pass noisy Fake.options (fst checked)
                    (extend [SuppressErrors [7]] (snd checked))).
Proof.
  intros noisy checked.
  apply (@conversion_without_fallback
           _ _ noisy Fake.options (fun _ => None) "src/a" (Fake.start None)
           ("src/a", ["x"]) []).
  - reflexivity.
  - repeat constructor.
Defined.

(** X8, witness: the root of [nameless_root]. *)
Lemma paths_without_names_still_convert_witness :
  find_targets (Fake.world Fake.nameless_root) [] "src" false = [("a", [])]
  /\ convert_directory (Fake.world Fake.nameless_root) Fake.options
                       (fun _ => None) "src" (Fake.start None)
     = Some
         {| glob := None;
            trace :=
              [Log INFO "Creating local configuration at %s."
                   [LStr "src/.pyre_configuration.local"];
               ConfigurationWrite
                 {| Fake.path := "src/.pyre_configuration.local";
                    Fake.targets := [] |};
               AddPaths ["src/.pyre_configuration.local"];
               Log INFO "Removing typing options from %s targets files" [LInt 1];
               SubprocessRun
                 ["sed"; "-i";
                  "/typing \?=.*\|check_types \?=.*\|check_types_options \?=.*\|typing_options \?=.*/d";
                  "a/TARGETS"];
               RemoveNonPyreIgnores "src";
               GetErrors {| Fake.path := "src/.pyre_configuration.local";
                            Fake.targets := [] |} None] |}.
Proof.
  refine (conj eq_refl _).
  rewrite (@paths_without_names_still_convert
             _ _ (Fake.world Fake.nameless_root) Fake.options (fun _ => None)
             "src" (Fake.start None) ("a", []) []);
    first [reflexivity | repeat constructor].
Defined.

(** X11, witness: the second listing for [src/a/b] and [src/a], and the
    first listing for the absolute [/repo/a]. *)
Lemma listed_parents_are_component_prefixes_witness :
  listed_parents ["src/a/b"; "src/a"] = ["src"; "src/a"]
  /\ listed_parents ["/repo/a"] = [""]
  /\ (exists d,
         In d ["src/a/b"; "src/a"]
         /\ 2 < List.length (Py.split "/" d)
         /\ "src/a" = Py.join "/" (firstn 2 (Py.split "/" d))
         /\ String.prefix "src/a" d = true
         /\ (1 = 0 -> String.prefix "/" d = true -> "src/a" = ""))
  /\ (exists d,
         In d ["/repo/a"]
         /\ 1 < List.length (Py.split "/" d)
         /\ "" = Py.join "/" (firstn 1 (Py.split "/" d))
         /\ String.prefix "" d = true
         /\ (0 = 0 -> String.prefix "/" d = true -> "" = "")).
Proof.
  refine (conj eq_refl (conj eq_refl (conj _ _))).
  - apply (@listed_parents_are_component_prefixes
             _ _ two [] ["src/a/b"; "src/a"] 1 "src/a" eq_refl).
  - apply (@listed_parents_are_component_prefixes
             _ _ two [] ["/repo/a"] 0 "" eq_refl).
Defined.

(** X12, witness: configurations in [a] and [b] only. *)
Lemma single_component_directories_fill_nothing_witness :
  listed_parents ["a"; "b"] = [] /\ missing_directories two [] ["a"; "b"] = [].
Proof.
  apply (@single_component_directories_fill_nothing _ _ two [] ["a"; "b"]).
  repeat constructor.
Defined.

(** X13, witness: the two configurations of [two_projects]. *)
Lemma known_directories_of_found_files_witness :
  known_directories two [] "src" = ["src/a"; "src/b"].
Proof.
  apply (@known_directories_of_found_files _ _ two [] "src" ["src/a"; "src/b"]).
  - repeat constructor.
  - reflexivity.
Defined.

End Samples.

